(** * Tissue: a shallow embedding of the build pipeline of [tissue.py]

    The development follows [src/tissue.py] stage by stage:
    [validate_frontmatter], [generate_permalink], [build_index],
    [check_for_duplicate_permalinks], [render_pages],
    [generate_search_index], [generate_sitemap] and [main].

    Conventions of the embedding.
    - Front-matter values are dynamically typed in the source; they are
      embedded as the tagged union [pyval] (None, bool, int, str, list and
      dict with string keys).  Floats and dates are not represented.
    - Python [str] is embedded as [string]; the only characters the code
      inspects are the ASCII slash and dot, so the byte view is adequate.
    - A [pathlib] path is the list of its components.  Paths are taken
      relative to [ROOT_DIR], so [BUILD_DIR] is [["public"]]; the POSIX
      flavour of [pathlib] is modelled.
    - The markup converter, the template engine and the base URL of the
      sitemap are parameters of the development (the class [Externals]).
    - [print] is embedded as a list of structured diagnostics; an exception
      is embedded as the [Raise] outcome of a stage, together with what the
      stage had printed or written before it.  The informational lines
      guarded by [VERBOSE] are not part of the diagnostics.
    - The rendered files are a finite map from output paths to texts.  The
      steps of [main] before [build_index] (cleaning the output directory,
      pre-rendering partials, copying static assets) and failures of the
      operating system are left out. *)

From Stdlib Require Import ZArith Ascii String List.
From stdpp Require Import base gmap strings list fin_maps.

Set Warnings "-clear-no-such-hyp".

Local Open Scope Z_scope.
Local Open Scope stdpp_scope.

(** ** Python values *)

Module Py.

#[warnings="-register-all"]
Inductive pyval : Type :=
| VNone
| VBool (b : bool)
| VInt (z : Z)
| VStr (s : string)
| VList (l : list pyval)
| VDict (d : list (string * pyval)).

(** [bool(v)]: the truth value Python's [not], [or] and [if] test. *)
Definition truthy (v : pyval) : bool :=
  match v with
  | VNone => false
  | VBool b => b
  | VInt z => negb (z =? 0)
  | VStr s => negb (String.eqb s "")
  | VList l => match l with [] => false | _ => true end
  | VDict d => match d with [] => false | _ => true end
  end.

(** [a or b] *)
Definition py_or (a b : pyval) : pyval := if truthy a then a else b.

(** Keys of a dict: the hashable values up to Python's [==].  [True] and
    [False] hash and compare as [1] and [0]; lists and dicts are
    unhashable. *)
Inductive pykey : Type :=
| KNone
| KInt (z : Z)
| KStr (s : string).

Definition hash_key (v : pyval) : option pykey :=
  match v with
  | VNone => Some KNone
  | VBool b => Some (KInt (if b then 1 else 0))
  | VInt z => Some (KInt z)
  | VStr s => Some (KStr s)
  | VList _ | VDict _ => None
  end.

#[global] Instance pykey_eq_dec : EqDecision pykey.
Proof. solve_decision. Defined.

Definition pykey_to_sum (k : pykey) : unit + (Z + string) :=
  match k with
  | KNone => inl tt
  | KInt z => inr (inl z)
  | KStr s => inr (inr s)
  end.

Definition pykey_of_sum (x : unit + (Z + string)) : pykey :=
  match x with
  | inl _ => KNone
  | inr (inl z) => KInt z
  | inr (inr s) => KStr s
  end.

#[global] Instance pykey_countable : Countable pykey.
Proof.
  refine (inj_countable' pykey_to_sum pykey_of_sum _).
  intros []; reflexivity.
Defined.

(** Exceptions the pipeline can raise. *)
Inductive exn : Type :=
| TypeError
| AttributeError
| TemplateError.

Inductive result (A : Type) : Type :=
| Ok (a : A)
| Raise (e : exn).
Arguments Ok {A} a.
Arguments Raise {A} e.

End Py.
Export Py.

(** ** Strings: the [str] methods the code calls *)

Module Str.

(** [s.lstrip(c)] for a one-character [c]. *)
Fixpoint lstrip (c : ascii) (s : string) : string :=
  match s with
  | EmptyString => EmptyString
  | String a s' => if Ascii.eqb a c then lstrip c s' else s
  end.

(** [s.rstrip(c)] for a one-character [c]. *)
Fixpoint rstrip (c : ascii) (s : string) : string :=
  match s with
  | EmptyString => EmptyString
  | String a s' =>
      match rstrip c s' with
      | EmptyString => if Ascii.eqb a c then EmptyString else String a EmptyString
      | r => String a r
      end
  end.

(** [s.strip(c)] *)
Definition strip (c : ascii) (s : string) : string := rstrip c (lstrip c s).

(** [s.split(c)]: the empty string splits into one empty field. *)
Fixpoint split (c : ascii) (s : string) : list string :=
  match s with
  | EmptyString => [EmptyString]
  | String a s' =>
      if Ascii.eqb a c then EmptyString :: split c s'
      else match split c s' with
           | h :: t => String a h :: t
           | [] => [String a EmptyString]
           end
  end.

(** [sep.join(l)] *)
Fixpoint join (sep : string) (l : list string) : string :=
  match l with
  | [] => ""
  | [x] => x
  | x :: rest => x +:+ sep +:+ join sep rest
  end.

(** [s.rfind(c)]: index of the last occurrence, [None] for Python's -1. *)
Fixpoint rfind (c : ascii) (s : string) : option nat :=
  match s with
  | EmptyString => None
  | String a s' =>
      match rfind c s' with
      | Some i => Some (S i)
      | None => if Ascii.eqb a c then Some 0%nat else None
      end
  end.

(** [s[:n]] and [s[n:]] *)
Fixpoint take (n : nat) (s : string) : string :=
  match n, s with
  | S n', String a s' => String a (take n' s')
  | _, _ => EmptyString
  end.

Fixpoint drop (n : nat) (s : string) : string :=
  match n, s with
  | S n', String _ s' => drop n' s'
  | _, _ => s
  end.

End Str.

(** ** Paths: the [pathlib] operations the code calls *)

Module Path.

(** A pure path without anchor: its components. *)
Definition path := list string.

(** Components of a relative path string: [pathlib] splits on the separator
    and drops empty and ["."] fields. *)
Definition is_part (x : string) : bool :=
  negb (String.eqb x "") && negb (String.eqb x ".").

Definition parse (s : string) : path :=
  List.filter is_part (Str.split "/" s).

(** [p / s] for a string [s] that does not start with a slash. *)
Definition joinpath (p : path) (s : string) : path := p ++ parse s.

(** [p.name]: the final component, [""] when there is none. *)
Definition name (p : path) : string := List.last p "".

(** [p.parent] *)
Definition parent (p : path) : path := List.removelast p.

(** The suffix of a file name as [PurePath.suffix] computes it (CPython
    3.11): from its last dot, unless that dot is the first or the last
    character. *)
Definition name_suffix (n : string) : string :=
  match Str.rfind "." n with
  | Some i =>
      if (0 <? i)%nat && (i <? String.length n - 1)%nat then Str.drop i n else ""
  | None => ""
  end.

(** [p.suffix] *)
Definition suffix (p : path) : string := name_suffix (name p).

(** [p.with_suffix("")] for a path with a non-empty name. *)
Definition with_suffix_empty (p : path) : path :=
  let n := name p in
  let old := name_suffix n in
  parent p ++ [Str.take (String.length n - String.length old) n].

(** [p.stem] on a file name: the name up to its suffix. *)
Definition name_stem (n : string) : string :=
  match Str.rfind "." n with
  | Some i =>
      if (0 <? i)%nat && (i <? String.length n - 1)%nat then Str.take i n else n
  | None => n
  end.

Definition stem (p : path) : string := name_stem (name p).

(** [p.as_posix()] *)
Definition as_posix (p : path) : string := Str.join "/" p.

End Path.

(** ** The data model *)

(** A loaded source document: [md_path] holds the components of the path
    relative to [MARKDOWN_DIR] (it names a file, so it is not empty);
    [metadata] and [body] are what [frontmatter.load] returns. *)
Record document : Type := Document {
  md_path : Path.path;
  metadata : gmap string pyval;
  body : string
}.

(** The dict appended to the index by [build_index]. *)
Record page : Type := Page {
  content : string;
  title : pyval;
  desc : pyval;
  image : pyval;
  permalink : pyval;
  template : pyval;
  groups : list pyval;
  pages_exclude : pyval
}.

(** The external capabilities the build relies on: the markup converter
    ([markdown.markdown]), the template engine ([Environment.get_template]
    and [Template.render] applied to the page and to [all_pages]; [None]
    stands for an exception of the engine) and the configured base URL of
    the sitemap ([tissue_config.sitemap_base_url]). *)
Class Externals : Type := {
  markdown : string -> string;
  tmpl : Type;
  get_template : pyval -> option tmpl;
  render : tmpl -> page -> list page -> option string;
  sitemap_base_url : string
}.

(** What the pipeline prints, apart from the [VERBOSE] progress lines. *)
Inductive diagnostic : Type :=
| MissingKeys (filepath : Path.path) (missing : gset string)
| UnknownKeys (filepath : Path.path) (unknown : gset string)
| DuplicatePermalink (first_title : pyval) (this_title : pyval) (shared : pyval).

Definition BUILD_DIR : Path.path := ["public"].

Definition REQUIRED_KEYS : gset string :=
  {[ "title"; "desc"; "image"; "template" ]}.
Definition OPTIONAL_KEYS : gset string :=
  {[ "permalink"; "pages_exclude"; "groups" ]}.
Definition KNOWN_KEYS : gset string := REQUIRED_KEYS ∪ OPTIONAL_KEYS.

(** ** The stages *)

Definition is_empty_set (s : gset string) : bool := bool_decide (s = ∅).

Definition validate_frontmatter (metadata : gmap string pyval) (filepath : Path.path)
  : bool * list diagnostic :=
  let missing := REQUIRED_KEYS ∖ dom metadata in
  let unknown := dom metadata ∖ KNOWN_KEYS in
  let out1 := if is_empty_set missing then [] else [MissingKeys filepath missing] in
  let out2 := if is_empty_set unknown then [] else [UnknownKeys filepath unknown] in
  (is_empty_set missing, out1 ++ out2).

Definition generate_permalink (rel : Path.path) : string :=
  "/" +:+ Path.as_posix (Path.with_suffix_empty rel) +:+ "/".

(** [md_path.relative_to(MARKDOWN_DIR).parent.name or "root"] *)
Definition section_of (rel : Path.path) : string :=
  let n := Path.name (Path.parent rel) in
  if String.eqb n "" then "root" else n.

(** The [isinstance] cascade on [raw_groups]. *)
Definition normalize_groups (raw_groups : pyval) : list pyval :=
  match raw_groups with
  | VStr s => [VStr s]
  | VList l => l
  | _ => []
  end.

(** [page.get(key, default)] *)
Definition get (md : gmap string pyval) (key : string) (dflt : pyval) : pyval :=
  default dflt (md !! key).

Section Stages.
Context `{E : Externals}.

(** The body of the loop of [build_index] for a document that passed
    validation. *)
Definition make_page (d : document) : page :=
  let html := markdown (body d) in
  let section := section_of (md_path d) in
  let raw_groups := normalize_groups (get (metadata d) "groups" (VList [])) in
  {| content := html;
     title := get (metadata d) "title" (VStr "");
     desc := get (metadata d) "desc" (VStr "");
     image := get (metadata d) "image" (VStr "");
     permalink := py_or (get (metadata d) "permalink" VNone)
                        (VStr (generate_permalink (md_path d)));
     template := get (metadata d) "template" (VStr "template_default.html");
     groups := VStr section :: raw_groups;
     pages_exclude := get (metadata d) "pages_exclude" (VBool false) |}.

(** [build_index]: [docs] is the sequence [MARKDOWN_DIR.rglob] and
    [frontmatter.load] deliver; [index] is the list being appended to and
    [out] what has been printed so far. *)
Fixpoint build_index_loop (docs : list document) (index : list page)
    (out : list diagnostic) : list page * list diagnostic :=
  match docs with
  | [] => (index, out)
  | d :: rest =>
      let '(valid, printed) := validate_frontmatter (metadata d) (md_path d) in
      if negb valid then build_index_loop rest index (out ++ printed)
      else build_index_loop rest (index ++ [make_page d]) (out ++ printed)
  end.

Definition build_index (docs : list document) : list page * list diagnostic :=
  build_index_loop docs [] [].

(** [check_for_duplicate_permalinks]: the diagnostics printed, and whether
    the scan ended normally.  An unhashable permalink makes the dict lookup
    raise. *)
Fixpoint check_loop (index : list page) (seen : gmap pykey pyval)
  : list diagnostic * result unit :=
  match index with
  | [] => ([], Ok tt)
  | pg :: rest =>
      match hash_key (permalink pg) with
      | None => ([], Raise TypeError)
      | Some k =>
          match seen !! k with
          | Some first =>
              let '(out, r) := check_loop rest seen in
              (DuplicatePermalink first (title pg) (permalink pg) :: out, r)
          | None => check_loop rest (<[k := title pg]> seen)
          end
      end
  end.

Definition check_for_duplicate_permalinks (index : list page)
  : list diagnostic * result unit :=
  check_loop index ∅.

(** The output path of [render_pages] for a string permalink. *)
Definition out_path (permalink : string) : Path.path :=
  let p := Path.joinpath BUILD_DIR (Str.strip "/" permalink) in
  if String.eqb (Path.suffix p) "" then Path.joinpath p "index.html" else p.

(** [render_pages]: [fs] maps each written output path to its text.  What
    was written before an exception stays written. *)
Fixpoint render_loop (all_pages : list page) (index : list page)
    (fs : gmap Path.path string) : gmap Path.path string * result unit :=
  match index with
  | [] => (fs, Ok tt)
  | pg :: rest =>
      match get_template (template pg) with
      | None => (fs, Raise TemplateError)
      | Some t =>
          match render t pg all_pages with
          | None => (fs, Raise TemplateError)
          | Some rendered =>
              match permalink pg with
              | VStr s => render_loop all_pages rest (<[out_path s := rendered]> fs)
              | _ => (fs, Raise AttributeError)
              end
          end
      end
  end.

Definition render_pages (index : list page)
  : gmap Path.path string * result unit :=
  render_loop index index ∅.

(** [generate_search_index]: the list it dumps and returns. *)
Definition generate_search_index (index : list page) : list page :=
  List.filter (fun p => negb (truthy (pages_exclude p))) index.

(** [generate_sitemap]: the entries, one per page in order.  Adding a
    permalink that is not a string to the base URL raises. *)
Definition url_entry (permalink : string) : string :=
  "<url><loc>" +:+ Str.rstrip "/" sitemap_base_url +:+ permalink +:+ "</loc></url>".

Fixpoint sitemap_entries (pages : list page) (entries : list string)
  : result (list string) :=
  match pages with
  | [] => Ok entries
  | pg :: rest =>
      match permalink pg with
      | VStr s => sitemap_entries rest (entries ++ [url_entry s])
      | _ => Raise TypeError
      end
  end.

Definition dquote : string := String "034"%char "".
Definition newline : string := String "010"%char "".

Definition sitemap_document (entries : list string) : string :=
  "<?xml version=" +:+ dquote +:+ "1.0" +:+ dquote +:+ " encoding="
    +:+ dquote +:+ "UTF-8" +:+ dquote +:+ "?>" +:+ newline
    +:+ "<urlset xmlns=" +:+ dquote
    +:+ "http://www.sitemaps.org/schemas/sitemap/0.9" +:+ dquote +:+ ">"
    +:+ newline +:+ Str.join "" entries +:+ newline +:+ "</urlset>" +:+ newline.

Definition generate_sitemap (pages : list page) : result (list string * string) :=
  match sitemap_entries pages [] with
  | Ok entries => Ok (entries, sitemap_document entries)
  | Raise e => Raise e
  end.

(** What a build leaves behind: the page index, everything printed, the
    rendered files, and the two artifacts when the build got that far. *)
Record build : Type := Build {
  b_index : list page;
  b_printed : list diagnostic;
  b_files : gmap Path.path string;
  b_search_index : option (list page);
  b_sitemap : option (list string * string);
  b_outcome : result unit
}.

(** [main], from [build_index] on. *)
Definition main (docs : list document) : build :=
  let '(index, out1) := build_index docs in
  let '(out2, r) := check_for_duplicate_permalinks index in
  match r with
  | Raise e => Build index (out1 ++ out2) ∅ None None (Raise e)
  | Ok _ =>
      let '(fs, r) := render_pages index in
      match r with
      | Raise e => Build index (out1 ++ out2) fs None None (Raise e)
      | Ok _ =>
          let searchable_pages := generate_search_index index in
          match generate_sitemap searchable_pages with
          | Raise e =>
              Build index (out1 ++ out2) fs (Some searchable_pages) None (Raise e)
          | Ok sm =>
              Build index (out1 ++ out2) fs (Some searchable_pages) (Some sm) (Ok tt)
          end
      end
  end.

End Stages.

(** ** The partial pre-renderers *)

Definition TEMPLATE_DIR : Path.path := ["templates"].

Section Partials.
Context `{E : Externals}.

(** [prerender_partials_to_templates].  [partial_source] is [None] when
    [templates/partialsource] does not exist; otherwise it lists, in the
    order of [glob], the name and the text of each file matching [*.md].
    [fs] maps the files written so far to their text. *)
Fixpoint prerender_loop (sources : list (string * string))
    (fs : gmap Path.path string) : gmap Path.path string :=
  match sources with
  | [] => fs
  | (md_name, text) :: rest =>
      let name := Path.name_stem md_name in
      let html := markdown text in
      let out_path := Path.joinpath TEMPLATE_DIR ("partial_" +:+ name +:+ ".html") in
      prerender_loop rest (<[out_path := html]> fs)
  end.

Definition prerender_partials_to_templates
    (partial_source : option (list (string * string)))
    (fs : gmap Path.path string) : gmap Path.path string :=
  match partial_source with
  | None => fs
  | Some sources => prerender_loop sources fs
  end.

(** [render_partials], the pathway [main] leaves commented out: the same
    conversion, written under [BUILD_DIR]. *)
Fixpoint render_partials_loop (sources : list (string * string))
    (fs : gmap Path.path string) : gmap Path.path string :=
  match sources with
  | [] => fs
  | (md_name, text) :: rest =>
      let name := Path.name_stem md_name in
      let html := markdown text in
      let out_path := Path.joinpath BUILD_DIR ("partial_" +:+ name +:+ ".html") in
      render_partials_loop rest (<[out_path := html]> fs)
  end.

Definition render_partials (partial_dir : option (list (string * string)))
    (fs : gmap Path.path string) : gmap Path.path string :=
  match partial_dir with
  | Some sources => render_partials_loop sources fs
  | None => fs
  end.

End Partials.


(** ** The wording of the specification, for comparison with the code *)

(** "Strip the leading slash": one slash, when there is one. *)
Definition strip_leading_slash (s : string) : string :=
  match s with
  | String a s' => if Ascii.eqb a "/" then s' else s
  | EmptyString => s
  end.

(** "Treat the remainder as a relative path under the output root; if the
    resulting path has no file-extension suffix, append [index.html]." *)
Definition spec_out_path (permalink : string) : Path.path :=
  let p := BUILD_DIR ++ Path.parse (strip_leading_slash permalink) in
  if String.eqb (Path.suffix p) "" then p ++ ["index.html"] else p.

(** "A single string becomes a one-element sequence; anything not a string
    or list of strings is discarded." *)
Definition is_str (v : pyval) : bool :=
  match v with VStr _ => true | _ => false end.

Definition spec_normalize_groups (raw_groups : pyval) : list pyval :=
  match raw_groups with
  | VStr s => [VStr s]
  | VList l => if forallb is_str l then l else []
  | _ => []
  end.

(** ** Vocabulary of the statements *)

(** The validity signal of [validate_frontmatter] for a document. *)
Definition valid_doc (d : document) : bool :=
  fst (validate_frontmatter (metadata d) (md_path d)).

(** The pages of an index that own the permalink with key [k], in index
    order, and the collision reports about that permalink. *)
Definition owners (k : pykey) (index : list page) : list page :=
  List.filter (fun pg => bool_decide (hash_key (permalink pg) = Some k)) index.

Definition reports (k : pykey) (out : list diagnostic) : list diagnostic :=
  List.filter (fun d =>
    match d with
    | DuplicatePermalink _ _ shared => bool_decide (hash_key shared = Some k)
    | _ => false
    end) out.

(** The report the auditor prints for [pg] when [first] is the title stored
    for its permalink. *)
Definition report_for (first : pyval) (pg : page) : diagnostic :=
  DuplicatePermalink first (title pg) (permalink pg).

(** The reports about a permalink, for a scan started with the dict [seen]. *)
Definition expected_reports (seen : gmap pykey pyval) (k : pykey)
    (index : list page) : list diagnostic :=
  match seen !! k with
  | Some first => map (report_for first) (owners k index)
  | None =>
      match owners k index with
      | [] => []
      | p1 :: later => map (report_for (title p1)) later
      end
  end.

(** The dict keys of the permalinks of an index, [None] for an unhashable
    permalink. *)
Definition permalink_keys (index : list page) : list (option pykey) :=
  map (fun pg => hash_key (permalink pg)) index.

(** The set of the distinct permalinks of an index, as dict keys. *)
Definition distinct_permalinks (index : list page) : gset pykey :=
  list_to_set (omap (fun pg => hash_key (permalink pg)) index).

Definition hashable (pg : page) : bool :=
  match hash_key (permalink pg) with Some _ => true | None => false end.

Definition is_missing_report (d : diagnostic) : bool :=
  match d with MissingKeys _ _ => true | _ => false end.

(** A string without the character [c]. *)
Fixpoint lacks (c : ascii) (s : string) : bool :=
  match s with
  | EmptyString => true
  | String a s' => negb (Ascii.eqb a c) && lacks c s'
  end.

(** A file or directory name: not empty, not the dot, without a slash. *)
Definition proper_name (x : string) : bool :=
  Path.is_part x && lacks "/" x.

(** The documents whose pages reach the search index. *)
Definition searchable_doc (d : document) : bool :=
  valid_doc d && negb (truthy (get (metadata d) "pages_exclude" (VBool false))).

Definition str_permalink (pg : page) : bool := is_str (permalink pg).

Section Vocabulary.
Context `{E : Externals}.

(** [e] is the sitemap entry of the page [pg]. *)
Definition entry_of (pg : page) (e : string) : Prop :=
  exists s, permalink pg = VStr s /\ e = url_entry s.


End Vocabulary.

(** ** Concrete inputs *)

Definition ex_externals : Externals := {|
  markdown := fun s => "<p>" +:+ s +:+ "</p>";
  tmpl := string;
  get_template := fun v =>
    match v with
    | VStr n => if String.eqb n "page.html" then Some n else None
    | _ => None
    end;
  render := fun t pg _ => Some (t +:+ ":" +:+ content pg);
  sitemap_base_url := "https://domain.io/"
|}.

(** Front matter holding the four required keys. *)
Definition required_md (t : string) : gmap string pyval :=
  <["title" := VStr t]> (<["desc" := VStr "d"]> (<["image" := VStr "i.png"]>
    (<["template" := VStr "page.html"]> ∅))).

Definition doc_post1 : document :=
  Document ["blog"; "post1.md"]
    (<["groups" := VStr "featured"]> (required_md "Post 1")) "hello".

(** A page kept out of the search index. *)
Definition doc_hidden : document :=
  Document ["hidden.md"]
    (<["pages_exclude" := VBool true]> (required_md "Hidden")) "secret".

(** Front matter declaring an empty permalink. *)
Definition doc_empty_permalink : document :=
  Document ["about.md"] (<["permalink" := VStr ""]> (required_md "About")) "x".

(** Front matter declaring a list of numbers as groups. *)
Definition doc_int_groups : document :=
  Document ["blog"; "n.md"] (<["groups" := VList [VInt 1]]> (required_md "N")) "x".

(** Front matter with [pages_exclude:] left empty, which YAML reads as null. *)
Definition doc_null_exclude : document :=
  Document ["n.md"] (<["pages_exclude" := VNone]> (required_md "N")) "x".

(** Two documents declaring the same permalink. *)
Definition doc_about1 : document :=
  Document ["about.md"] (<["permalink" := VStr "/about/"]> (required_md "About")) "a".
Definition doc_about2 : document :=
  Document ["team"; "us.md"] (<["permalink" := VStr "/about/"]> (required_md "About us")) "b".

(** A document with a key outside the schema, and one without [image]. *)
Definition doc_unknown_key : document :=
  Document ["u.md"] (<["author" := VStr "me"]> (required_md "U")) "x".
Definition doc_no_image : document :=
  Document ["broken.md"] (delete "image" (required_md "Broken")) "x".

(** Two documents whose permalinks differ by the closing slash only. *)
Definition doc_foo1 : document :=
  Document ["a.md"] (<["permalink" := VStr "/foo"]> (required_md "A")) "first".
Definition doc_foo2 : document :=
  Document ["b.md"] (<["permalink" := VStr "/foo/"]> (required_md "B")) "second".

(** A document whose permalink is a list. *)
Definition doc_list_permalink : document :=
  Document ["l.md"] (<["permalink" := VList [VStr "/a/"]]> (required_md "L")) "x".

(** The same capabilities with the base URL written without its closing
    slash. *)
Definition ex_externals_bare : Externals := {|
  markdown := @markdown ex_externals;
  tmpl := @tmpl ex_externals;
  get_template := @get_template ex_externals;
  render := @render ex_externals;
  sitemap_base_url := "https://domain.io"
|}.

Definition doc_int_permalink : document :=
  Document ["p.md"] (<["permalink" := VInt 5]> (required_md "P")) "x".

(** ** The embedded library functions on concrete inputs *)

Example strip_ex : Str.strip "/" "//a/b//" = "a/b".
Proof. reflexivity. Qed.

Example split_ex : Str.split "/" "/a//b/" = [""; "a"; ""; "b"; ""].
Proof. reflexivity. Qed.

Example parse_ex : Path.parse "a//b/./c/" = ["a"; "b"; "c"].
Proof. reflexivity. Qed.

Example suffix_ex :
  map Path.name_suffix
    [".md"; "..md"; "a.md"; "a..md"; ".a.md"; "a.b.md"; "foo."; ".."; "public"]
  = [""; ".md"; ".md"; ".md"; ".md"; ".md"; ""; ""; ""].
Proof. reflexivity. Qed.

Example with_suffix_ex :
  map (fun n => Path.as_posix (Path.with_suffix_empty ["x"; n]))
    [".md"; "..md"; "a.md"; "a..md"; ".a.md"; "a.b.md"]
  = ["x/.md"; "x/."; "x/a"; "x/a."; "x/.a"; "x/a.b"].
Proof. reflexivity. Qed.

(** The scenario of the specification: [markdown/blog/post1.md] with
    [groups: featured]. *)
Example post1_page :
  @make_page ex_externals doc_post1 =
  {| content := "<p>hello</p>"; title := VStr "Post 1"; desc := VStr "d";
     image := VStr "i.png"; permalink := VStr "/blog/post1/";
     template := VStr "page.html"; groups := [VStr "blog"; VStr "featured"];
     pages_exclude := VBool false |}.
Proof. reflexivity. Qed.

(** A document without [image] is reported and left out. *)
Example no_image_build :
  b_index (@main ex_externals [doc_no_image]) = [] /\
  b_printed (@main ex_externals [doc_no_image])
    = [MissingKeys ["broken.md"] {[ "image" ]}] /\
  b_files (@main ex_externals [doc_no_image]) = ∅.
Proof. repeat split; vm_compute; reflexivity. Qed.

(** Permalinks that differ by outer slashes are distinct keys for the
    auditor, yet the second page overwrites the file of the first. *)
Example outer_slash_overwrite :
  b_printed (@main ex_externals [doc_foo1; doc_foo2]) = [] /\
  map_to_list (b_files (@main ex_externals [doc_foo1; doc_foo2]))
    = [(["public"; "foo"; "index.html"], "page.html:<p>second</p>")].
Proof. split; vm_compute; reflexivity. Qed.

(** ** Strings and paths *)

Section StringFacts.

Lemma split_nonempty c s : Str.split c s <> [].
Proof.
  destruct s as [|a s]; simpl; [discriminate|].
  destruct (Ascii.eqb a c); [discriminate|].
  destruct (Str.split c s); discriminate.
Qed.

Lemma split_rstrip c s :
  exists n, Str.split c s = Str.split c (Str.rstrip c s) ++ replicate n "".
Proof.
  induction s as [|a s [n IH]]; simpl.
  - exists 0%nat. reflexivity.
  - destruct (Str.rstrip c s) as [|b r] eqn:Hr.
    + simpl in IH. destruct (Ascii.eqb a c) eqn:Hac; simpl.
      * exists (S n). rewrite IH. reflexivity.
      * exists n. rewrite ?Hac, IH. reflexivity.
    + exists n. change (Str.split c (String a (String b r)))
        with (if Ascii.eqb a c then "" :: Str.split c (String b r)
              else match Str.split c (String b r) with
                   | h :: t => String a h :: t
                   | [] => [String a ""]
                   end).
      destruct (Ascii.eqb a c); rewrite IH; [reflexivity|].
      destruct (Str.split c (String b r)) as [|h t] eqn:Hs; [|reflexivity].
      exfalso. exact (split_nonempty _ _ Hs).
Qed.

Lemma filter_is_part_replicate n :
  List.filter Path.is_part (replicate n "") = [].
Proof. induction n; simpl; auto. Qed.

Lemma parse_rstrip s : Path.parse (Str.rstrip "/" s) = Path.parse s.
Proof.
  unfold Path.parse. destruct (split_rstrip "/" s) as [n ->].
  rewrite List.filter_app, filter_is_part_replicate, app_nil_r. reflexivity.
Qed.

Lemma parse_lstrip s : Path.parse (Str.lstrip "/" s) = Path.parse s.
Proof.
  induction s as [|a s IH]; [reflexivity|].
  simpl. destruct (Ascii.eqb a "/") eqn:Ha; [|reflexivity].
  rewrite IH. unfold Path.parse. simpl. rewrite Ha. reflexivity.
Qed.

Lemma parse_strip s : Path.parse (Str.strip "/" s) = Path.parse s.
Proof. unfold Str.strip. rewrite parse_rstrip. apply parse_lstrip. Qed.

Lemma parse_strip_leading_slash s :
  Path.parse (strip_leading_slash s) = Path.parse s.
Proof.
  destruct s as [|a s]; [reflexivity|].
  simpl. destruct (Ascii.eqb a "/") eqn:Ha; [|reflexivity].
  unfold Path.parse. simpl. rewrite Ha. reflexivity.
Qed.

(** [rstrip] removes exactly the trailing run of the character. *)
Lemma rstrip_snoc_same c s : Str.rstrip c (s +:+ String c "") = Str.rstrip c s.
Proof.
  induction s as [|a s IH]; simpl.
  - rewrite Ascii.eqb_refl. reflexivity.
  - change (String a s +:+ String c "") with (String a (s +:+ String c "")).
    simpl. rewrite IH. reflexivity.
Qed.

Lemma rstrip_snoc_other c a s :
  a <> c -> Str.rstrip c (s +:+ String a "") = s +:+ String a "".
Proof.
  intros Hac. induction s as [|b s IH]; simpl.
  - destruct (Ascii.eqb_spec a c); [contradiction|reflexivity].
  - change (String b s +:+ String a "") with (String b (s +:+ String a "")).
    simpl. rewrite IH. destruct s; reflexivity.
Qed.

End StringFacts.

Section PathFacts.

Lemma length_append (s t : string) :
  String.length (s +:+ t) = (String.length s + String.length t)%nat.
Proof. induction s as [|a s IH]; simpl; [reflexivity|]. rewrite <- IH. reflexivity. Qed.

Lemma rfind_app_last c s t :
  Str.rfind c t = None -> Str.rfind c (s +:+ String c t) = Some (String.length s).
Proof.
  intros Ht. induction s as [|a s IH].
  - change ("" +:+ String c t) with (String c t). simpl.
    rewrite Ht, Ascii.eqb_refl. reflexivity.
  - change (String a s +:+ String c t) with (String a (s +:+ String c t)).
    simpl. rewrite IH. reflexivity.
Qed.

Lemma drop_app_length s t : Str.drop (String.length s) (s +:+ t) = t.
Proof. induction s as [|a s IH]; [destruct t; reflexivity|exact IH]. Qed.

Lemma take_app_length s t : Str.take (String.length s) (s +:+ t) = s.
Proof.
  induction s as [|a s IH]; [destruct t; reflexivity|].
  change (String a s +:+ t) with (String a (s +:+ t)). simpl. rewrite IH. reflexivity.
Qed.

(** A file name [stem.md] with a non-empty stem has the suffix [.md]. *)
Lemma name_suffix_md stem : stem <> "" -> Path.name_suffix (stem +:+ ".md") = ".md".
Proof.
  intros Hne. unfold Path.name_suffix.
  rewrite (rfind_app_last "." stem "md") by reflexivity.
  rewrite length_append.
  destruct stem as [|a stem]; [contradiction|].
  replace (0 <? String.length (String a stem))%nat with true
    by (symmetry; apply Nat.ltb_lt; simpl; lia).
  replace (String.length (String a stem) <?
           String.length (String a stem) + String.length ".md" - 1)%nat with true
    by (symmetry; apply Nat.ltb_lt; simpl; lia).
  simpl andb. cbv iota. apply drop_app_length.
Qed.

Lemma name_snoc (p : Path.path) n : Path.name (p ++ [n]) = n.
Proof. unfold Path.name. apply List.last_last. Qed.

Lemma parent_snoc (p : Path.path) n : Path.parent (p ++ [n]) = p.
Proof. unfold Path.parent. apply List.removelast_last. Qed.

Lemma with_suffix_empty_md dirs stem :
  stem <> "" ->
  Path.with_suffix_empty (dirs ++ [stem +:+ ".md"]) = dirs ++ [stem].
Proof.
  intros Hne. unfold Path.with_suffix_empty.
  rewrite name_snoc, parent_snoc, name_suffix_md by assumption.
  rewrite length_append.
  replace (String.length stem + String.length ".md" - String.length ".md")%nat
    with (String.length stem) by lia.
  rewrite take_app_length. reflexivity.
Qed.

End PathFacts.

(** ** The stages, one by one *)

Section StageFacts.
Context `{E : Externals}.

Lemma is_empty_set_true (s : gset string) : is_empty_set s = true <-> s = ∅.
Proof. unfold is_empty_set. apply bool_decide_eq_true. Qed.

Lemma validate_required md fp :
  fst (validate_frontmatter md fp) = true <-> REQUIRED_KEYS ⊆ dom md.
Proof.
  unfold validate_frontmatter. simpl. rewrite is_empty_set_true.
  split; intros H.
  - intros k Hk. destruct (decide (k ∈ dom md)) as [|Hn]; [assumption|].
    exfalso. assert (k ∈ REQUIRED_KEYS ∖ dom md) as Hin by set_solver.
    rewrite H in Hin. set_solver.
  - apply set_eq. intros k. set_solver.
Qed.

Lemma required_keys_elem k :
  k ∈ REQUIRED_KEYS <-> k = "title" \/ k = "desc" \/ k = "image" \/ k = "template".
Proof. unfold REQUIRED_KEYS. set_solver. Qed.

Lemma build_index_loop_spec docs index out :
  build_index_loop docs index out =
  (index ++ map make_page (List.filter valid_doc docs),
   out ++ concat (map (fun d => snd (validate_frontmatter (metadata d) (md_path d))) docs)).
Proof.
  revert index out. induction docs as [|d docs IH]; intros index out.
  - simpl. rewrite !app_nil_r. reflexivity.
  - cbn [build_index_loop List.filter map concat]. unfold valid_doc at 1.
    destruct (validate_frontmatter (metadata d) (md_path d)) as [ok printed].
    cbn [fst snd]. destruct ok; cbn [negb map]; rewrite IH.
    + rewrite <- !app_assoc. reflexivity.
    + rewrite <- !app_assoc. reflexivity.
Qed.

Lemma build_index_spec docs :
  fst (build_index docs) = map make_page (List.filter valid_doc docs).
Proof. unfold build_index. rewrite build_index_loop_spec. reflexivity. Qed.

End StageFacts.

Section AuditorFacts.
Context `{E : Externals}.

Lemma owners_cons k pg index :
  owners k (pg :: index) =
  if bool_decide (hash_key (permalink pg) = Some k) then pg :: owners k index
  else owners k index.
Proof. reflexivity. Qed.

Lemma reports_cons_report k first pg out :
  reports k (report_for first pg :: out) =
  if bool_decide (hash_key (permalink pg) = Some k)
  then report_for first pg :: reports k out
  else reports k out.
Proof. reflexivity. Qed.

Lemma check_loop_spec index :
  forall seen,
  Forall (fun pg => is_Some (hash_key (permalink pg))) index ->
  exists out,
    check_loop index seen = (out, Ok tt) /\
    (forall k, reports k out = expected_reports seen k index) /\
    Forall (fun d => exists first pg,
              pg ∈ index /\ d = report_for first pg) out.
Proof.
  induction index as [|pg index IH]; intros seen Hh.
  - exists []. split; [reflexivity|]. split; [|constructor].
    intros k. unfold expected_reports. destruct (seen !! k); reflexivity.
  - inversion Hh as [|? ? [k0 Hk0] Hrest]; subst.
    simpl. rewrite Hk0.
    destruct (seen !! k0) as [first|] eqn:Hseen.
    + destruct (IH seen Hrest) as (out & Hrun & Hrep & Hall).
      rewrite Hrun. eexists. split; [reflexivity|]. split.
      * intros k. change (DuplicatePermalink first (title pg) (permalink pg))
          with (report_for first pg).
        rewrite reports_cons_report, Hrep. unfold expected_reports.
        rewrite owners_cons. rewrite Hk0.
        case_bool_decide as Hk; [|reflexivity].
        injection Hk as <-. rewrite Hseen. reflexivity.
      * constructor.
        -- exists first, pg. split; [left|reflexivity].
        -- eapply Forall_impl; [exact Hall|].
           intros d (f & q & Hq & ->). exists f, q. split; [right; exact Hq|reflexivity].
    + destruct (IH (<[k0 := title pg]> seen) Hrest) as (out & Hrun & Hrep & Hall).
      exists out. split; [exact Hrun|]. split.
      * intros k. rewrite Hrep. unfold expected_reports.
        rewrite owners_cons, Hk0.
        case_bool_decide as Hk.
        -- injection Hk as <-. rewrite lookup_insert_eq, Hseen. reflexivity.
        -- rewrite lookup_insert_ne by congruence. reflexivity.
      * eapply Forall_impl; [exact Hall|].
        intros d (f & q & Hq & ->). exists f, q. split; [right; exact Hq|reflexivity].
Qed.

(** A list of reports that are all about one permalink is the list of the
    reports about that permalink. *)
Lemma reports_all k out :
  Forall (fun d => exists first pg,
            hash_key (permalink pg) = Some k /\ d = report_for first pg) out ->
  reports k out = out.
Proof.
  induction 1 as [|d out (f & pg & Hk & ->) _ IH]; [reflexivity|].
  rewrite reports_cons_report, IH. rewrite bool_decide_eq_true_2 by exact Hk.
  reflexivity.
Qed.

Lemma reports_nil_inv k first pg out :
  hash_key (permalink pg) = Some k ->
  report_for first pg ∈ out -> reports k out <> [].
Proof.
  intros Hk Hin Hnil.
  assert (report_for first pg ∈ reports k out) as Hin'.
  { unfold reports. apply list_elem_of_In, List.filter_In.
    split; [apply list_elem_of_In; exact Hin|].
    simpl. apply bool_decide_eq_true_2. exact Hk. }
  rewrite Hnil in Hin'. inversion Hin'.
Qed.

End AuditorFacts.

Section RendererFacts.
Context `{E : Externals}.

(** Rendering never removes a file. *)
Lemma render_loop_keeps all_pages index :
  forall fs p, is_Some (fs !! p) ->
  is_Some (fst (render_loop all_pages index fs) !! p).
Proof.
  induction index as [|pg index IH]; intros fs p Hp; simpl; [exact Hp|].
  destruct (get_template (template pg)) as [t|]; [|exact Hp].
  destruct (render t pg all_pages) as [rendered|]; [|exact Hp].
  destruct (permalink pg) as [| | |s| |]; try exact Hp.
  apply IH. destruct (decide (out_path s = p)) as [->|Hne].
  - rewrite lookup_insert_eq. eauto.
  - rewrite lookup_insert_ne by exact Hne. exact Hp.
Qed.

(** A run that ends normally has written the output file of every page. *)
Lemma render_loop_writes all_pages index :
  forall fs fs',
  render_loop all_pages index fs = (fs', Ok tt) ->
  Forall (fun pg => exists s, permalink pg = VStr s /\
            is_Some (fs' !! out_path s)) index.
Proof.
  induction index as [|pg index IH]; intros fs fs' Hok; [constructor|].
  simpl in Hok.
  destruct (get_template (template pg)) as [t|]; [|discriminate].
  destruct (render t pg all_pages) as [rendered|]; [|discriminate].
  destruct (permalink pg) as [| | |s| |] eqn:Hpl; try discriminate.
  constructor.
  - exists s. split; [exact Hpl|].
    replace fs' with (fst (render_loop all_pages index (<[out_path s := rendered]> fs)))
      by (rewrite Hok; reflexivity).
    apply render_loop_keeps. rewrite lookup_insert_eq. eauto.
  - eapply IH. exact Hok.
Qed.

(** Every file written is the output file of a page of the index. *)
Lemma render_loop_only all_pages index :
  forall fs p,
  is_Some (fst (render_loop all_pages index fs) !! p) ->
  is_Some (fs !! p) \/
  exists pg s, pg ∈ index /\ permalink pg = VStr s /\ p = out_path s.
Proof.
  induction index as [|pg index IH]; intros fs p Hp; simpl in *; [left; exact Hp|].
  destruct (get_template (template pg)) as [t|]; [|left; exact Hp].
  destruct (render t pg all_pages) as [rendered|]; [|left; exact Hp].
  destruct (permalink pg) as [| | |s| |] eqn:Hpl; try (left; exact Hp).
  destruct (IH _ _ Hp) as [Hin|(q & s' & Hq & Hs' & ->)].
  - destruct (decide (out_path s = p)) as [<-|Hne].
    + right. exists pg, s. split; [left|]. split; [exact Hpl|reflexivity].
    + left. rewrite lookup_insert_ne in Hin by exact Hne. exact Hin.
  - right. exists q, s'. split; [right; exact Hq|]. split; [exact Hs'|reflexivity].
Qed.

Lemma sitemap_entries_spec pages :
  forall acc entries,
  sitemap_entries pages acc = Ok entries ->
  exists new, entries = acc ++ new /\ Forall2 entry_of pages new.
Proof.
  induction pages as [|pg pages IH]; intros acc entries H; simpl in H.
  - injection H as <-. exists []. rewrite app_nil_r. split; [reflexivity|constructor].
  - destruct (permalink pg) as [| | |s| |] eqn:Hpl; try discriminate.
    destruct (IH _ _ H) as (new & -> & Hall).
    exists (url_entry s :: new). rewrite <- app_assoc. split; [reflexivity|].
    constructor; [|exact Hall]. exists s. split; [exact Hpl|reflexivity].
Qed.

Lemma generate_sitemap_spec pages entries doc :
  generate_sitemap pages = Ok (entries, doc) ->
  Forall2 entry_of pages entries /\ doc = sitemap_document entries.
Proof.
  unfold generate_sitemap. intros H.
  destruct (sitemap_entries pages []) as [es|] eqn:Hes; [|discriminate].
  injection H as <- <-.
  destruct (sitemap_entries_spec _ _ _ Hes) as (new & -> & Hall).
  split; [exact Hall|reflexivity].
Qed.

Lemma search_index_elem index p :
  p ∈ generate_search_index index <->
  p ∈ index /\ truthy (pages_exclude p) = false.
Proof.
  unfold generate_search_index.
  rewrite !list_elem_of_In, List.filter_In, negb_true_iff. reflexivity.
Qed.

(** The shape of a build that ended normally. *)
Lemma main_ok docs :
  b_outcome (main docs) = Ok tt ->
  exists sm,
    main docs =
    Build (fst (build_index docs))
          (snd (build_index docs)
             ++ fst (check_for_duplicate_permalinks (fst (build_index docs))))
          (fst (render_pages (fst (build_index docs))))
          (Some (generate_search_index (fst (build_index docs))))
          (Some sm) (Ok tt) /\
    snd (render_pages (fst (build_index docs))) = Ok tt /\
    generate_sitemap (generate_search_index (fst (build_index docs))) = Ok sm.
Proof.
  unfold main. destruct (build_index docs) as [index out1]. cbn [fst snd].
  destruct (check_for_duplicate_permalinks index) as [out2 [[]|e]]; [|discriminate].
  destruct (render_pages index) as [fs [[]|e]]; [|discriminate].
  destruct (generate_sitemap (generate_search_index index)) as [sm|e]; [|discriminate].
  intros _. exists sm. auto.
Qed.

Lemma main_index docs : b_index (main docs) = fst (build_index docs).
Proof.
  unfold main. destruct (build_index docs) as [index out1].
  destruct (check_for_duplicate_permalinks index) as [out2 [[]|e]]; [|reflexivity].
  destruct (render_pages index) as [fs [[]|e]]; [|reflexivity].
  destruct (generate_sitemap (generate_search_index index)); reflexivity.
Qed.

End RendererFacts.

(** ** The output path of the renderer *)

(** C6. The output file of a page is its permalink with the leading slash
    stripped, taken as a path relative to the output root, with
    [index.html] appended exactly when that path has no suffix; the
    permalink [/blog/post1/] is written to [public/blog/post1/index.html],
    and the renderer writes the page to that path. *)
Theorem render_output_path `{E : Externals} :
  (forall s, out_path s = spec_out_path s) /\
  out_path "/blog/post1/" = ["public"; "blog"; "post1"; "index.html"] /\
  (forall all_pages pg rest fs s fs',
     permalink pg = VStr s ->
     render_loop all_pages (pg :: rest) fs = (fs', Ok tt) ->
     is_Some (fs' !! out_path s)).
Proof.
  split; [|split].
  - intros s. unfold out_path, spec_out_path, Path.joinpath.
    rewrite parse_strip, parse_strip_leading_slash. reflexivity.
  - reflexivity.
  - intros all_pages pg rest fs s fs' Hpl Hrun.
    pose proof (render_loop_writes _ _ _ _ Hrun) as Hall.
    inversion Hall as [|? ? (s' & Hs' & Hfile) _]; subst.
    rewrite Hpl in Hs'. injection Hs' as <-. exact Hfile.
Qed.

(** C10. The output path depends only on the permalink stripped of its
    leading and trailing slashes: [/foo], [/foo/] and [foo] are written to
    the same file, so distinct permalinks can share an output file. *)
Theorem out_path_ignores_outer_slashes :
  (forall p1 p2, Str.strip "/" p1 = Str.strip "/" p2 -> out_path p1 = out_path p2) /\
  (out_path "/foo" = ["public"; "foo"; "index.html"] /\
   out_path "/foo/" = ["public"; "foo"; "index.html"] /\
   out_path "foo" = ["public"; "foo"; "index.html"]) /\
  (exists p1 p2, p1 <> p2 /\ out_path p1 = out_path p2).
Proof.
  split; [|split].
  - intros p1 p2 H. unfold out_path. rewrite H. reflexivity.
  - repeat split; reflexivity.
  - exists "/foo", "/foo/". split; [discriminate|reflexivity].
Qed.

Lemma out_path_ignores_outer_slashes_witness :
  Str.strip "/" "//docs/a.html" = Str.strip "/" "docs/a.html/" /\
  out_path "//docs/a.html" = out_path "docs/a.html/".
Proof.
  split; [reflexivity|].
  apply (proj1 out_path_ignores_outer_slashes). reflexivity.
Defined.

(** ** The page indexer *)

(** C5. Without a declared permalink, the permalink of a document
    [dirs/stem.md] is the slash, the components [dirs] and [stem] joined by
    forward slashes, and a closing slash.  (A file named exactly [.md] has no
    extension for [pathlib], so there is none to strip and the name stays.) *)
Theorem derived_permalink `{E : Externals} (d : document) (dirs : list string) (stem : string) :
  metadata d !! "permalink" = None ->
  md_path d = dirs ++ [stem +:+ ".md"] ->
  permalink (make_page d) =
    VStr ("/" +:+ Str.join "/" (dirs ++ [if String.eqb stem "" then ".md" else stem])
              +:+ "/").
Proof.
  intros Hno Hpath. unfold make_page. cbn [permalink].
  unfold get. rewrite Hno. cbn [from_option py_or truthy].
  unfold generate_permalink, Path.as_posix. rewrite Hpath.
  destruct (String.eqb_spec stem "") as [->|Hstem].
  - unfold Path.with_suffix_empty. rewrite name_snoc, parent_snoc. reflexivity.
  - rewrite with_suffix_empty_md by exact Hstem. reflexivity.
Qed.

Lemma derived_permalink_witness :
  permalink (@make_page ex_externals doc_post1) = VStr "/blog/post1/".
Proof.
  apply (@derived_permalink ex_externals doc_post1 ["blog"] "post1"); reflexivity.
Defined.

Lemma render_output_path_witness :
  is_Some (fst (@render_loop ex_externals [] [@make_page ex_externals doc_post1] ∅)
             !! ["public"; "blog"; "post1"; "index.html"]).
Proof.
  refine (proj2 (proj2 (@render_output_path ex_externals))
            [] (@make_page ex_externals doc_post1) [] ∅ "/blog/post1/" _ _ _).
  - reflexivity.
  - vm_compute. reflexivity.
Defined.

(** C3, as the code has it.  A declared permalink is used verbatim when it
    is truthy; a declared value that is falsy (the empty string, null,
    false, zero, an empty list) is replaced by the derived permalink. *)
Theorem declared_permalink `{E : Externals} (d : document) (v : pyval) :
  metadata d !! "permalink" = Some v ->
  (truthy v = true -> permalink (make_page d) = v) /\
  (truthy v = false ->
   permalink (make_page d) = VStr (generate_permalink (md_path d))).
Proof.
  intros Hv. unfold make_page. cbn [permalink]. unfold get, py_or.
  rewrite Hv. cbn [from_option id].
  split; intros ->; reflexivity.
Qed.

Lemma declared_permalink_witness :
  permalink (@make_page ex_externals doc_about1) = VStr "/about/".
Proof.
  apply (proj1 (@declared_permalink ex_externals doc_about1 (VStr "/about/") eq_refl)).
  reflexivity.
Defined.

(** C3 fails as stated: a valid document declaring the empty permalink gets
    the derived one. *)
Lemma declared_empty_permalink_replaced :
  valid_doc doc_empty_permalink = true /\
  metadata doc_empty_permalink !! "permalink" = Some (VStr "") /\
  permalink (@make_page ex_externals doc_empty_permalink) = VStr "/about/" /\
  permalink (@make_page ex_externals doc_empty_permalink) <> VStr "".
Proof. repeat split; try reflexivity. discriminate. Qed.

Section GroupFacts.

Lemma section_of_root name : section_of [name] = "root".
Proof. reflexivity. Qed.

Lemma section_of_dir (dirs : list string) dir name :
  dir <> "" -> section_of (dirs ++ [dir; name]) = dir.
Proof.
  intros Hne. unfold section_of.
  change (dirs ++ [dir; name]) with (dirs ++ [dir] ++ [name]).
  rewrite app_assoc, parent_snoc, name_snoc.
  destruct (String.eqb_spec dir ""); [contradiction|reflexivity].
Qed.

End GroupFacts.

(** C4, as the code has it.  [groups] is the section name (the parent
    directory, or [root] at the tree root) followed by the declared groups:
    a string as a one-element list, a list as it stands whatever its
    elements, anything else and an absent key as nothing.  On strings and
    lists of strings this is the normalisation the specification words. *)
Theorem page_groups `{E : Externals} (d : document) :
  groups (make_page d) =
    VStr (section_of (md_path d)) ::
    match metadata d !! "groups" with
    | Some (VStr s) => [VStr s]
    | Some (VList l) => l
    | _ => []
    end /\
  (forall name, section_of [name] = "root") /\
  (forall dirs dir name, dir <> "" -> section_of (dirs ++ [dir; name]) = dir) /\
  (forall raw,
     (forall l, raw = VList l -> forallb is_str l = true) ->
     normalize_groups raw = spec_normalize_groups raw).
Proof.
  split; [|split; [|split]].
  - unfold make_page. cbn [groups]. unfold get.
    destruct (metadata d !! "groups") as [[| | | | |]|]; reflexivity.
  - exact section_of_root.
  - exact section_of_dir.
  - intros raw Hraw. destruct raw as [| | | |l|]; try reflexivity.
    simpl. rewrite (Hraw l eq_refl). reflexivity.
Qed.

Lemma page_groups_witness :
  section_of (md_path doc_post1) = "blog" /\
  normalize_groups (VList [VStr "a"; VStr "b"])
    = spec_normalize_groups (VList [VStr "a"; VStr "b"]).
Proof.
  split.
  - apply (proj1 (proj2 (proj2 (@page_groups ex_externals doc_post1))) [] "blog" "post1.md").
    discriminate.
  - apply (proj2 (proj2 (proj2 (@page_groups ex_externals doc_post1)))).
    intros l Hl. injection Hl as <-. reflexivity.
Defined.

(** C4 fails as stated: a declared list that is not a list of strings is
    kept, not discarded. *)
Lemma groups_list_of_numbers_kept :
  valid_doc doc_int_groups = true /\
  groups (@make_page ex_externals doc_int_groups) = [VStr "blog"; VInt 1] /\
  groups (@make_page ex_externals doc_int_groups) <>
    VStr "blog" :: spec_normalize_groups (get (metadata doc_int_groups) "groups" (VList [])).
Proof. repeat split; try reflexivity. discriminate. Qed.

(** ** The build as a whole *)

Ltac main_cases docs :=
  unfold main;
  destruct (build_index docs) as [index out1]; cbn [fst snd];
  destruct (check_for_duplicate_permalinks index) as [out2 [[]|?]];
  [ destruct (render_pages index) as [fs [[]|?]];
    [ destruct (generate_sitemap (generate_search_index index)) as [sm|?] eqn:Hsm | ]
  | ];
  cbn [b_index b_printed b_files b_search_index b_sitemap b_outcome fst snd].

Section BuildFacts.
Context `{E : Externals}.

Lemma main_printed docs :
  b_printed (main docs) =
  snd (build_index docs) ++ fst (check_for_duplicate_permalinks (fst (build_index docs))).
Proof. main_cases docs; reflexivity. Qed.

Lemma main_files docs p :
  is_Some (b_files (main docs) !! p) ->
  is_Some (fst (render_pages (fst (build_index docs))) !! p).
Proof.
  main_cases docs; try (intros H; exact H).
  rewrite lookup_empty. intros [? ?]. discriminate.
Qed.

Lemma main_search_index docs si :
  b_search_index (main docs) = Some si ->
  si = generate_search_index (fst (build_index docs)).
Proof. main_cases docs; intros H; try discriminate; injection H as <-; reflexivity. Qed.

Lemma main_sitemap docs art :
  b_sitemap (main docs) = Some art ->
  b_search_index (main docs) = Some (generate_search_index (fst (build_index docs))) /\
  generate_sitemap (generate_search_index (fst (build_index docs))) = Ok art.
Proof.
  main_cases docs; intros H; try discriminate.
  injection H as <-. split; reflexivity.
Qed.

(** Once the auditor has returned, the renderer runs on the whole index. *)
Lemma main_after_audit docs out :
  check_for_duplicate_permalinks (fst (build_index docs)) = (out, Ok tt) ->
  b_printed (main docs) = snd (build_index docs) ++ out /\
  b_files (main docs) = fst (render_pages (fst (build_index docs))) /\
  (snd (render_pages (fst (build_index docs))) = Ok tt ->
   b_search_index (main docs)
     = Some (generate_search_index (fst (build_index docs)))).
Proof.
  unfold main. destruct (build_index docs) as [index out1]. cbn [fst snd].
  intros ->.
  destruct (render_pages index) as [fs [[]|?]];
    [destruct (generate_sitemap (generate_search_index index))|];
    cbn; repeat split; auto; discriminate.
Qed.

Lemma printed_by_validation docs d x :
  d ∈ docs ->
  x ∈ snd (validate_frontmatter (metadata d) (md_path d)) ->
  x ∈ snd (build_index docs).
Proof.
  intros Hd Hx. unfold build_index. rewrite build_index_loop_spec.
  cbn [snd app]. apply list_elem_of_In, List.in_concat.
  exists (snd (validate_frontmatter (metadata d) (md_path d))).
  split; [|apply list_elem_of_In; exact Hx].
  apply List.in_map_iff. exists d. split; [reflexivity|apply list_elem_of_In; exact Hd].
Qed.

Lemma valid_doc_keys d :
  valid_doc d = true <->
  is_Some (metadata d !! "title") /\ is_Some (metadata d !! "desc") /\
  is_Some (metadata d !! "image") /\ is_Some (metadata d !! "template").
Proof.
  unfold valid_doc. rewrite validate_required.
  rewrite <- !elem_of_dom. split.
  - intros H. repeat split; apply H; apply required_keys_elem; auto.
  - intros (H1 & H2 & H3 & H4) k Hk. apply required_keys_elem in Hk.
    destruct Hk as [->|[->|[->| ->]]]; assumption.
Qed.

Lemma valid_doc_unknown_key d k v :
  k ∉ KNOWN_KEYS ->
  valid_doc (Document (md_path d) (<[k := v]> (metadata d)) (body d)) = valid_doc d.
Proof.
  intros Hk.
  assert (valid_doc (Document (md_path d) (<[k := v]> (metadata d)) (body d)) = true
          <-> valid_doc d = true) as Hiff.
  { unfold valid_doc. cbn [metadata md_path]. rewrite !validate_required.
    rewrite dom_insert_L.
    assert (k ∉ REQUIRED_KEYS) as Hreq
      by (intros Hin; apply Hk, elem_of_union_l, Hin).
    split; intros H x Hx.
    - specialize (H x Hx). apply elem_of_union in H as [H|H]; [|exact H].
      apply elem_of_singleton in H. subst x. contradiction.
    - apply elem_of_union_r, H, Hx. }
  destruct (valid_doc d), (valid_doc (Document _ _ _)); try reflexivity.
  - apply Hiff. reflexivity.
  - symmetry. apply Hiff. reflexivity.
Qed.

End BuildFacts.

(** C2. The page index holds exactly the page records of the documents
    whose metadata has all of [title], [desc], [image] and [template]; a
    document with keys outside the schema gets a warning and its validity
    does not change; and the search index, the sitemap and the rendered
    files are drawn from the page index only. *)
Theorem missing_keys_exclude `{E : Externals} (docs : list document) :
  (forall d, valid_doc d = true <->
     is_Some (metadata d !! "title") /\ is_Some (metadata d !! "desc") /\
     is_Some (metadata d !! "image") /\ is_Some (metadata d !! "template")) /\
  b_index (main docs) = map make_page (List.filter valid_doc docs) /\
  (forall d, d ∈ docs -> dom (metadata d) ∖ KNOWN_KEYS <> ∅ ->
     UnknownKeys (md_path d) (dom (metadata d) ∖ KNOWN_KEYS) ∈ b_printed (main docs)) /\
  (forall d k v, k ∉ KNOWN_KEYS ->
     valid_doc (Document (md_path d) (<[k := v]> (metadata d)) (body d)) = valid_doc d) /\
  (forall si pg, b_search_index (main docs) = Some si -> pg ∈ si ->
     pg ∈ b_index (main docs)) /\
  (forall entries doc, b_sitemap (main docs) = Some (entries, doc) ->
     exists si, b_search_index (main docs) = Some si /\ Forall2 entry_of si entries) /\
  (forall p, is_Some (b_files (main docs) !! p) ->
     exists pg s, pg ∈ b_index (main docs) /\ permalink pg = VStr s /\ p = out_path s).
Proof.
  repeat apply conj.
  - exact valid_doc_keys.
  - rewrite main_index. apply build_index_spec.
  - intros d Hd Hunk. rewrite main_printed. apply elem_of_app. left.
    apply (printed_by_validation docs d); [exact Hd|].
    unfold validate_frontmatter. cbn [snd]. apply elem_of_app. right.
    destruct (is_empty_set (dom (metadata d) ∖ KNOWN_KEYS)) eqn:Hemp.
    + apply is_empty_set_true in Hemp. contradiction.
    + left.
  - exact valid_doc_unknown_key.
  - intros si pg Hsi Hpg. apply main_search_index in Hsi. subst si.
    rewrite main_index. apply search_index_elem in Hpg. apply Hpg.
  - intros entries doc Hsm. apply main_sitemap in Hsm as [Hsi Hgen].
    eexists. split; [exact Hsi|].
    apply generate_sitemap_spec in Hgen. apply Hgen.
  - intros p Hp. apply main_files in Hp. unfold render_pages in Hp.
    apply render_loop_only in Hp as [Hp|Hp].
    + rewrite lookup_empty in Hp. destruct Hp; discriminate.
    + rewrite main_index. exact Hp.
Qed.

Lemma missing_keys_exclude_witness :
  valid_doc doc_unknown_key = true /\
  valid_doc doc_no_image = false /\
  b_index (@main ex_externals [doc_no_image; doc_unknown_key])
    = [@make_page ex_externals doc_unknown_key] /\
  UnknownKeys ["u.md"] {[ "author" ]}
    ∈ b_printed (@main ex_externals [doc_no_image; doc_unknown_key]).
Proof.
  pose proof (@missing_keys_exclude ex_externals [doc_no_image; doc_unknown_key])
    as (Hkeys & Hindex & Hwarn & _).
  split; [|split; [|split]].
  - apply Hkeys. repeat split; eexists; reflexivity.
  - destruct (valid_doc doc_no_image) eqn:Hv; [|reflexivity].
    apply Hkeys in Hv as (_ & _ & [x Hx] & _). discriminate.
  - rewrite Hindex. reflexivity.
  - replace ({[ "author" ]} : gset string)
      with (dom (metadata doc_unknown_key) ∖ KNOWN_KEYS) by (vm_compute; reflexivity).
    apply (Hwarn doc_unknown_key).
    + right. left.
    + vm_compute. discriminate.
Defined.

(** C1, as the code has it.  In a build that ends normally, a page whose
    [pages_exclude] is true is left out of the search index; the sitemap has
    exactly one entry per page of the search index, so it leaves the page
    out as well; the page is still rendered to its output file. *)
Theorem excluded_page_rendered_not_listed `{E : Externals}
    (docs : list document) (pg : page) :
  b_outcome (main docs) = Ok tt ->
  pg ∈ b_index (main docs) ->
  pages_exclude pg = VBool true ->
  (exists si entries doc,
     b_search_index (main docs) = Some si /\ (pg ∉ si) /\
     b_sitemap (main docs) = Some (entries, doc) /\ Forall2 entry_of si entries) /\
  (exists s, permalink pg = VStr s /\ is_Some (b_files (main docs) !! out_path s)).
Proof.
  intros Hok Hpg Hex.
  destruct (main_ok docs Hok) as ([entries doc] & Hmain & Hrender & Hsm).
  rewrite Hmain in Hpg |- *. cbn [b_index b_search_index b_sitemap b_files] in *.
  split.
  - exists (generate_search_index (fst (build_index docs))), entries, doc.
    split; [reflexivity|]. split; [|split; [reflexivity|]].
    + intros Hin. apply search_index_elem in Hin as [_ Hin].
      rewrite Hex in Hin. discriminate.
    + apply generate_sitemap_spec in Hsm. apply Hsm.
  - unfold render_pages in *.
    destruct (render_loop (fst (build_index docs)) (fst (build_index docs)) ∅)
      as [fs r] eqn:Hrun.
    cbn [fst snd] in *. subst r.
    pose proof (render_loop_writes _ _ _ _ Hrun) as Hall.
    rewrite Forall_forall in Hall. exact (Hall pg Hpg).
Qed.

Lemma excluded_page_rendered_not_listed_witness :
  (exists si entries doc,
     b_search_index (@main ex_externals [doc_post1; doc_hidden]) = Some si /\
     (@make_page ex_externals doc_hidden ∉ si) /\
     b_sitemap (@main ex_externals [doc_post1; doc_hidden]) = Some (entries, doc) /\
     Forall2 (@entry_of ex_externals) si entries) /\
  (exists s, permalink (@make_page ex_externals doc_hidden) = VStr s /\
     is_Some (b_files (@main ex_externals [doc_post1; doc_hidden]) !! out_path s)).
Proof.
  apply (@excluded_page_rendered_not_listed ex_externals [doc_post1; doc_hidden]).
  - vm_compute. reflexivity.
  - rewrite main_index, build_index_spec. right. left.
  - reflexivity.
Defined.

(** C1 fails as stated: a rendered page with [pages_exclude: true] has no
    URL entry in the sitemap. *)
Lemma excluded_page_absent_from_sitemap :
  b_outcome (@main ex_externals [doc_post1; doc_hidden]) = Ok tt /\
  @make_page ex_externals doc_hidden ∈ b_index (@main ex_externals [doc_post1; doc_hidden]) /\
  pages_exclude (@make_page ex_externals doc_hidden) = VBool true /\
  permalink (@make_page ex_externals doc_hidden) = VStr "/hidden/" /\
  is_Some (b_files (@main ex_externals [doc_post1; doc_hidden])
             !! ["public"; "hidden"; "index.html"]) /\
  fst <$> b_sitemap (@main ex_externals [doc_post1; doc_hidden])
    = Some [@url_entry ex_externals "/blog/post1/"] /\
  (@url_entry ex_externals "/hidden/") ∉ [@url_entry ex_externals "/blog/post1/"].
Proof.
  split; [vm_compute; reflexivity|].
  split; [rewrite main_index, build_index_spec; right; left|].
  split; [reflexivity|]. split; [reflexivity|].
  split; [vm_compute; eauto|].
  split; [vm_compute; reflexivity|].
  intros Hin. apply list_elem_of_In in Hin. destruct Hin as [Heq|[]].
  vm_compute in Heq. discriminate.
Qed.

(** ** The search index *)

(** C9. A page is in the search index exactly when it is in the page index
    and its stored [pages_exclude] is falsy.  The indexer stores the
    declared value as it is and [False] when the key is absent; the string
    [false] is truthy, while null and zero are falsy. *)
Theorem search_index_by_truthiness `{E : Externals} (index : list page) (p : page) :
  (p ∈ generate_search_index index <->
     p ∈ index /\ truthy (pages_exclude p) = false) /\
  (forall d v, metadata d !! "pages_exclude" = Some v ->
     pages_exclude (make_page d) = v) /\
  (forall d, metadata d !! "pages_exclude" = None ->
     pages_exclude (make_page d) = VBool false) /\
  truthy (VStr "false") = true /\
  truthy VNone = false /\ truthy (VInt 0) = false /\ truthy (VBool false) = false.
Proof.
  split; [apply search_index_elem|].
  split; [|split; [|repeat split]].
  - intros d v Hv. unfold make_page. cbn [pages_exclude]. unfold get.
    rewrite Hv. reflexivity.
  - intros d Hno. unfold make_page. cbn [pages_exclude]. unfold get.
    rewrite Hno. reflexivity.
Qed.

Lemma search_index_by_truthiness_witness :
  pages_exclude (@make_page ex_externals doc_null_exclude) = VNone /\
  pages_exclude (@make_page ex_externals doc_post1) = VBool false.
Proof.
  pose proof (@search_index_by_truthiness ex_externals [] (@make_page ex_externals doc_post1))
    as (_ & Hsome & Hnone & _).
  split; [apply Hsome|apply Hnone]; reflexivity.
Defined.

(** C8, as the code has it.  Every page of the search index has a falsy
    [pages_exclude], so never [True] and [False] whenever it is a boolean;
    every page whose [pages_exclude] is [True] is absent from it. *)
Theorem search_index_round_trip (index : list page) (p : page) :
  (p ∈ generate_search_index index ->
     p ∈ index /\ truthy (pages_exclude p) = false /\
     (forall b, pages_exclude p = VBool b -> b = false)) /\
  (pages_exclude p = VBool true -> p ∉ generate_search_index index) /\
  (pages_exclude p = VBool false -> p ∈ index -> p ∈ generate_search_index index).
Proof.
  split; [|split].
  - intros Hin. apply search_index_elem in Hin as [Hin Hf].
    split; [exact Hin|]. split; [exact Hf|].
    intros b Hb. rewrite Hb in Hf. exact Hf.
  - intros Hex Hin. apply search_index_elem in Hin as [_ Hf].
    rewrite Hex in Hf. discriminate.
  - intros Hex Hin. apply search_index_elem. split; [exact Hin|].
    rewrite Hex. reflexivity.
Qed.

Lemma search_index_round_trip_witness :
  (@make_page ex_externals doc_hidden
    ∉ generate_search_index (fst (@build_index ex_externals [doc_post1; doc_hidden]))) /\
  (@make_page ex_externals doc_post1)
    ∈ generate_search_index (fst (@build_index ex_externals [doc_post1; doc_hidden])).
Proof.
  split.
  - apply (proj1 (proj2 (search_index_round_trip _ _))). reflexivity.
  - apply (proj2 (proj2 (search_index_round_trip _ _))); [reflexivity|].
    rewrite build_index_spec. left.
Defined.

(** C8 fails as stated: a page whose [pages_exclude] is null is serialized
    into the search index, and its [pages_exclude] is not [False]. *)
Lemma search_index_holds_null_exclude :
  b_search_index (@main ex_externals [doc_null_exclude])
    = Some [@make_page ex_externals doc_null_exclude] /\
  pages_exclude (@make_page ex_externals doc_null_exclude) = VNone /\
  pages_exclude (@make_page ex_externals doc_null_exclude) <> VBool false.
Proof. split; [vm_compute; reflexivity|]. split; [reflexivity|discriminate]. Qed.

(** ** The permalink auditor *)

(** C7. On an index whose permalinks are hashable the auditor returns
    normally.  For each permalink it prints one report per owner after the
    first, naming the title of the first owner, the title of that owner and
    the permalink; when exactly two pages share a permalink that is one
    report naming both titles, and the only report if no other permalink is
    shared.  The auditor only reads the index: the build goes on to render
    the same index, both pages included. *)
Theorem duplicate_permalinks_reported `{E : Externals} (index : list page) :
  Forall (fun pg => is_Some (hash_key (permalink pg))) index ->
  exists out,
    check_for_duplicate_permalinks index = (out, Ok tt) /\
    (forall k, reports k out =
       match owners k index with
       | [] => []
       | p1 :: later => map (report_for (title p1)) later
       end) /\
    (forall k p1 p2, owners k index = [p1; p2] ->
       reports k out = [DuplicatePermalink (title p1) (title p2) (permalink p2)]) /\
    (forall k p1 p2, owners k index = [p1; p2] ->
       (forall k', k' <> k -> (length (owners k' index) <= 1)%nat) ->
       out = [DuplicatePermalink (title p1) (title p2) (permalink p2)]) /\
    (forall docs, fst (build_index docs) = index ->
       b_index (main docs) = index /\
       b_printed (main docs) = snd (build_index docs) ++ out /\
       b_files (main docs) = fst (render_pages index) /\
       (snd (render_pages index) = Ok tt ->
        b_search_index (main docs) = Some (generate_search_index index))).
Proof.
  intros Hhash.
  destruct (check_loop_spec index ∅ Hhash) as (out & Hrun & Hrep & Hall).
  assert (forall k, reports k out =
            match owners k index with
            | [] => []
            | p1 :: later => map (report_for (title p1)) later
            end) as Hrep'.
  { intros k. rewrite Hrep. unfold expected_reports. rewrite lookup_empty. reflexivity. }
  exists out. split; [exact Hrun|]. split; [exact Hrep'|]. split; [|split].
  - intros k p1 p2 Hown. rewrite Hrep', Hown. reflexivity.
  - intros k p1 p2 Hown Hothers.
    rewrite <- (reports_all k out).
    + rewrite Hrep', Hown. reflexivity.
    + rewrite Forall_forall in Hall |- *. intros d Hd.
      destruct (Hall d Hd) as (first & pg & Hpg & ->).
      exists first, pg. split; [|reflexivity].
      rewrite Forall_forall in Hhash. destruct (Hhash pg Hpg) as [k' Hk'].
      destruct (decide (k' = k)) as [->|Hne]; [exact Hk'|].
      exfalso. apply (reports_nil_inv k' first pg out Hk' Hd).
      rewrite Hrep'. specialize (Hothers k' Hne).
      destruct (owners k' index) as [|q [|q' rest]]; [reflexivity|reflexivity|].
      simpl in Hothers. lia.
  - intros docs Hidx. split; [rewrite main_index; exact Hidx|].
    rewrite <- Hidx in Hrun. destruct (main_after_audit docs out Hrun) as (Hp & Hf & Hs).
    rewrite Hidx in Hf, Hs. auto.
Qed.

Lemma duplicate_permalinks_reported_witness :
  exists out,
    check_for_duplicate_permalinks
      [@make_page ex_externals doc_about1; @make_page ex_externals doc_about2]
      = (out, Ok tt) /\
    out = [DuplicatePermalink (VStr "About") (VStr "About us") (VStr "/about/")] /\
    b_index (@main ex_externals [doc_about1; doc_about2])
      = [@make_page ex_externals doc_about1; @make_page ex_externals doc_about2].
Proof.
  destruct (@duplicate_permalinks_reported ex_externals
              [@make_page ex_externals doc_about1; @make_page ex_externals doc_about2])
    as (out & Hrun & _ & _ & Honly & Hbuild).
  - repeat constructor; eexists; reflexivity.
  - exists out. split; [exact Hrun|]. split.
    + apply (Honly (KStr "/about/") (@make_page ex_externals doc_about1)
               (@make_page ex_externals doc_about2)); [reflexivity|].
      intros k' Hk'. unfold owners. cbn [List.filter].
      change (hash_key (permalink (@make_page ex_externals doc_about1)))
        with (Some (KStr "/about/")).
      change (hash_key (permalink (@make_page ex_externals doc_about2)))
        with (Some (KStr "/about/")).
      rewrite !bool_decide_eq_false_2 by congruence. simpl. lia.
    + refine (proj1 (Hbuild [doc_about1; doc_about2] _)).
      rewrite build_index_spec. reflexivity.
Defined.

(** ** More about the metadata validator *)

Section ValidatorMore.

Lemma difference_empty_iff (X Y : gset string) : X ∖ Y = ∅ <-> X ⊆ Y.
Proof.
  split.
  - intros H k Hk. destruct (decide (k ∈ Y)) as [|Hn]; [assumption|].
    assert (k ∈ X ∖ Y) as Hin by (apply elem_of_difference; auto).
    rewrite H in Hin. exfalso. exact (not_elem_of_empty k Hin).
  - intros H. apply set_eq. intros k. split.
    + intros [Hx Hy]%elem_of_difference. exfalso. apply Hy, H, Hx.
    + intros Hin. exfalso. exact (not_elem_of_empty k Hin).
Qed.

(** X1. The validator prints nothing exactly when every required key is
    present and every present key is known. *)
Theorem validate_silent_iff (md : gmap string pyval) (fp : Path.path) :
  snd (validate_frontmatter md fp) = [] <->
  REQUIRED_KEYS ⊆ dom md /\ dom md ⊆ KNOWN_KEYS.
Proof.
  unfold validate_frontmatter. cbn [snd].
  rewrite <- !difference_empty_iff, <- !is_empty_set_true.
  destruct (is_empty_set (REQUIRED_KEYS ∖ dom md)),
           (is_empty_set (dom md ∖ KNOWN_KEYS)); simpl;
    split; try (intros [? ?]); try discriminate; auto.
Qed.

(** X2. A missing-keys report is printed exactly for an invalid document;
    it names the document and exactly the required keys that are absent
    from its metadata. *)
Theorem missing_report_iff (md : gmap string pyval) (fp : Path.path) :
  (forall fp' ks,
     MissingKeys fp' ks ∈ snd (validate_frontmatter md fp) <->
     fst (validate_frontmatter md fp) = false /\ fp' = fp /\
     ks = REQUIRED_KEYS ∖ dom md) /\
  (forall k, k ∈ REQUIRED_KEYS ∖ dom md <-> k ∈ REQUIRED_KEYS /\ md !! k = None).
Proof.
  split.
  - intros fp' ks. unfold validate_frontmatter. cbn [fst snd].
    destruct (is_empty_set (REQUIRED_KEYS ∖ dom md)),
             (is_empty_set (dom md ∖ KNOWN_KEYS)); simpl; split.
    all: try (intros (Hf & _); discriminate).
    all: try (intros (_ & -> & ->); left).
    all: intros Hin; repeat (apply elem_of_cons in Hin as [Hin|Hin]);
      try (inversion Hin; fail); try discriminate;
      try (injection Hin as -> ->; auto).
  - intros k. rewrite elem_of_difference, not_elem_of_dom. reflexivity.
Qed.

(** X3. Validity only grows with the metadata: adding keys, or changing
    values, never invalidates a document, while deleting a required key
    always does. *)
Theorem validity_monotone (md md' : gmap string pyval) (fp fp' : Path.path) :
  (dom md ⊆ dom md' ->
   fst (validate_frontmatter md fp) = true ->
   fst (validate_frontmatter md' fp') = true) /\
  (forall k, k ∈ REQUIRED_KEYS ->
   fst (validate_frontmatter (delete k md) fp) = false).
Proof.
  split.
  - intros Hsub Hv. apply validate_required. apply validate_required in Hv.
    intros k Hk. apply Hsub, Hv, Hk.
  - intros k Hk.
    destruct (fst (validate_frontmatter (delete k md) fp)) eqn:Hv; [|reflexivity].
    apply validate_required in Hv. specialize (Hv k Hk).
    rewrite dom_delete_L in Hv. apply elem_of_difference in Hv as [_ Hv].
    exfalso. apply Hv. apply elem_of_singleton. reflexivity.
Qed.

Lemma validity_monotone_witness :
  fst (validate_frontmatter (metadata doc_unknown_key) ["u.md"]) = true /\
  fst (validate_frontmatter (delete "desc" (required_md "U")) ["u.md"]) = false.
Proof.
  split.
  - apply (proj1 (validity_monotone (required_md "U") (metadata doc_unknown_key)
                    ["u.md"] ["u.md"])).
    + unfold doc_unknown_key. cbn [metadata]. rewrite dom_insert_L.
      apply union_subseteq_r.
    + vm_compute. reflexivity.
  - apply (proj2 (validity_monotone (required_md "U") (required_md "U")
                    ["u.md"] ["u.md"])).
    apply required_keys_elem. auto.
Defined.

End ValidatorMore.

(** ** More about the page indexer *)

Section IndexerMore.
Context `{E : Externals}.

(** X4. For a valid document the four required fields of the page record
    are the declared values: the defaults of [page.get] are never used. *)
Theorem required_fields_declared (d : document) :
  valid_doc d = true ->
  metadata d !! "title" = Some (title (make_page d)) /\
  metadata d !! "desc" = Some (desc (make_page d)) /\
  metadata d !! "image" = Some (image (make_page d)) /\
  metadata d !! "template" = Some (template (make_page d)).
Proof.
  intros Hv. apply valid_doc_keys in Hv as ([t Ht] & [ds Hds] & [i Hi] & [tp Htp]).
  unfold make_page. cbn [title desc image template]. unfold get.
  rewrite Ht, Hds, Hi, Htp. repeat split; reflexivity.
Qed.

(** X5. The permalink of a page record is never falsy: it is never null
    and never the empty string. *)
Theorem permalink_truthy (d : document) :
  truthy (permalink (make_page d)) = true.
Proof.
  unfold make_page. cbn [permalink]. unfold py_or.
  destruct (truthy (get (metadata d) "permalink" VNone)) eqn:Ht; [exact Ht|].
  reflexivity.
Qed.

(** X6. The groups of a page record are never empty: they start with the
    section name, a non-empty string. *)
Theorem groups_head_section (d : document) :
  exists s rest, groups (make_page d) = VStr s :: rest /\ s <> "".
Proof.
  unfold make_page. cbn [groups].
  eexists _, _. split; [reflexivity|].
  unfold section_of.
  destruct (String.eqb_spec (Path.name (Path.parent (md_path d))) "");
    [discriminate|assumption].
Qed.

(** X7. Indexing a concatenation of document lists gives the concatenation
    of the indexes and of the diagnostics: each document is treated on its
    own. *)
Theorem build_index_app (docs1 docs2 : list document) :
  build_index (docs1 ++ docs2) =
  (fst (build_index docs1) ++ fst (build_index docs2),
   snd (build_index docs1) ++ snd (build_index docs2)).
Proof.
  unfold build_index. rewrite !build_index_loop_spec. cbn [fst snd app].
  rewrite List.filter_app, !map_app, List.concat_app. reflexivity.
Qed.

Lemma missing_reports_of_validation md fp :
  length (List.filter is_missing_report (snd (validate_frontmatter md fp))) =
  if fst (validate_frontmatter md fp) then 0%nat else 1%nat.
Proof.
  unfold validate_frontmatter. cbn [fst snd].
  destruct (is_empty_set (REQUIRED_KEYS ∖ dom md)),
           (is_empty_set (dom md ∖ KNOWN_KEYS)); reflexivity.
Qed.

(** X8. Every document is accounted for once: it is either in the index
    or the subject of a missing-keys report. *)
Theorem build_index_accounts (docs : list document) :
  (length (fst (build_index docs)) +
   length (List.filter is_missing_report (snd (build_index docs))))%nat
  = length docs.
Proof.
  unfold build_index. rewrite build_index_loop_spec. cbn [fst snd app].
  induction docs as [|d docs IH]; [reflexivity|].
  cbn [List.filter map concat]. rewrite List.filter_app, length_app.
  rewrite missing_reports_of_validation. unfold valid_doc at 1.
  destruct (fst (validate_frontmatter (metadata d) (md_path d)));
    cbn [map length]; lia.
Qed.

End IndexerMore.

Lemma required_fields_declared_witness :
  metadata doc_post1 !! "title" = Some (title (@make_page ex_externals doc_post1)).
Proof.
  apply (@required_fields_declared ex_externals doc_post1). reflexivity.
Defined.

(** ** More about the permalink auditor *)

Section AuditorMore.
Context `{E : Externals}.

Lemma hashable_key pg k : hash_key (permalink pg) = Some k -> hashable pg = true.
Proof. unfold hashable. intros ->. reflexivity. Qed.

Lemma check_loop_silent index :
  forall seen,
  check_loop index seen = ([], Ok tt) <->
  forallb hashable index = true /\ NoDup (permalink_keys index) /\
  (forall k, Some k ∈ permalink_keys index -> seen !! k = None).
Proof.
  induction index as [|pg index IH]; intros seen.
  - simpl. split; [intros _|reflexivity].
    split; [reflexivity|]. split; [constructor|].
    intros k Hk. inversion Hk.
  - cbn [check_loop forallb permalink_keys map].
    fold (permalink_keys index).
    destruct (hash_key (permalink pg)) as [k0|] eqn:Hk0.
    + rewrite (hashable_key _ _ Hk0). cbn [andb].
      destruct (seen !! k0) as [first|] eqn:Hs.
      * split.
        -- destruct (check_loop index seen) as [out r]. discriminate.
        -- intros (_ & _ & Hfree). specialize (Hfree k0 ltac:(left)).
           rewrite Hs in Hfree. discriminate.
      * rewrite IH, NoDup_cons. split.
        -- intros (Hh & Hnd & Hfree). split; [exact Hh|]. split.
           ++ split; [|exact Hnd]. intros Hin. specialize (Hfree k0 Hin).
              rewrite lookup_insert_eq in Hfree. discriminate.
           ++ intros k [Heq|Hin]%elem_of_cons.
              ** injection Heq as ->. exact Hs.
              ** specialize (Hfree k Hin).
                 destruct (decide (k0 = k)) as [->|Hne].
                 --- rewrite lookup_insert_eq in Hfree. discriminate.
                 --- rewrite lookup_insert_ne in Hfree by exact Hne. exact Hfree.
        -- intros (Hh & [Hnin Hnd] & Hfree). split; [exact Hh|]. split; [exact Hnd|].
           intros k Hin. rewrite lookup_insert_ne.
           ++ apply Hfree. right. exact Hin.
           ++ intros ->. contradiction.
    + unfold hashable at 1. rewrite Hk0. cbn [andb]. split.
      * discriminate.
      * intros (Hf & _). discriminate.
Qed.

(** X9. The auditor ends normally without a report exactly when every
    permalink is hashable and no two pages have the same permalink. *)
Theorem auditor_silent_iff (index : list page) :
  check_for_duplicate_permalinks index = ([], Ok tt) <->
  forallb hashable index = true /\ NoDup (permalink_keys index).
Proof.
  unfold check_for_duplicate_permalinks. rewrite check_loop_silent.
  split.
  - intros (Hh & Hnd & _). auto.
  - intros (Hh & Hnd). split; [exact Hh|]. split; [exact Hnd|].
    intros k _. apply lookup_empty.
Qed.

Lemma check_loop_outcome index :
  forall seen,
  snd (check_loop index seen) =
  if forallb hashable index then Ok tt else Raise TypeError.
Proof.
  induction index as [|pg index IH]; intros seen; [reflexivity|].
  cbn [check_loop forallb]. unfold hashable at 1.
  destruct (hash_key (permalink pg)) as [k0|]; [|reflexivity].
  cbn [andb]. destruct (seen !! k0).
  - specialize (IH seen). destruct (check_loop index seen) as [out r]. exact IH.
  - apply IH.
Qed.

(** X10. The outcome of the auditor depends on the types of the permalinks
    only: it raises [TypeError] when some permalink is a list or a dict,
    and ends normally otherwise, however many collisions there are. *)
Theorem auditor_outcome (index : list page) :
  snd (check_for_duplicate_permalinks index) =
  if forallb hashable index then Ok tt else Raise TypeError.
Proof. apply check_loop_outcome. Qed.

End AuditorMore.

Section AuditorCount.
Context `{E : Externals}.

Lemma distinct_permalinks_cons pg index k :
  hash_key (permalink pg) = Some k ->
  distinct_permalinks (pg :: index) = {[ k ]} ∪ distinct_permalinks index.
Proof. unfold distinct_permalinks. cbn [omap list_omap]. intros ->. reflexivity. Qed.

Lemma check_loop_count index :
  forall seen,
  forallb hashable index = true ->
  (length (fst (check_loop index seen))
   + size (dom seen ∪ distinct_permalinks index))%nat
  = (length index + size (dom seen))%nat.
Proof.
  induction index as [|pg index IH]; intros seen Hh.
  - simpl. unfold distinct_permalinks. simpl.
    replace (dom seen ∪ ∅) with (dom seen) by set_solver. reflexivity.
  - cbn [forallb] in Hh. apply andb_true_iff in Hh as [Hpg Hh].
    unfold hashable in Hpg. cbn [check_loop].
    destruct (hash_key (permalink pg)) as [k0|] eqn:Hk0; [|discriminate].
    rewrite (distinct_permalinks_cons _ _ _ Hk0).
    destruct (seen !! k0) as [first|] eqn:Hs.
    + specialize (IH seen Hh). destruct (check_loop index seen) as [out r].
      cbn [fst length] in *.
      assert (k0 ∈ dom seen) as Hin by (apply elem_of_dom; eauto).
      replace (dom seen ∪ ({[k0]} ∪ distinct_permalinks index))
        with (dom seen ∪ distinct_permalinks index) by set_solver.
      lia.
    + specialize (IH (<[k0 := title pg]> seen) Hh).
      rewrite dom_insert_L in IH.
      assert (k0 ∉ dom seen) as Hnin by (apply not_elem_of_dom; exact Hs).
      rewrite (size_union {[k0]} (dom seen)) in IH by set_solver.
      rewrite size_singleton in IH.
      replace (dom seen ∪ ({[k0]} ∪ distinct_permalinks index))
        with ({[k0]} ∪ dom seen ∪ distinct_permalinks index) by set_solver.
      cbn [length]. lia.
Qed.

(** X11. On an index with hashable permalinks, the number of collision
    reports is the number of pages less the number of distinct
    permalinks. *)
Theorem auditor_report_count (index : list page) :
  forallb hashable index = true ->
  (length (fst (check_for_duplicate_permalinks index))
   + size (distinct_permalinks index))%nat = length index.
Proof.
  intros Hh. pose proof (check_loop_count index ∅ Hh) as H.
  rewrite dom_empty_L, size_empty in H.
  replace (∅ ∪ distinct_permalinks index) with (distinct_permalinks index) in H
    by set_solver.
  unfold check_for_duplicate_permalinks. lia.
Qed.

End AuditorCount.

Lemma auditor_report_count_witness :
  (length (fst (check_for_duplicate_permalinks
                  [@make_page ex_externals doc_about1;
                   @make_page ex_externals doc_about2;
                   @make_page ex_externals doc_post1]))
   + size (distinct_permalinks
             [@make_page ex_externals doc_about1;
              @make_page ex_externals doc_about2;
              @make_page ex_externals doc_post1]))%nat = 3%nat.
Proof.
  apply (auditor_report_count
           [@make_page ex_externals doc_about1;
            @make_page ex_externals doc_about2;
            @make_page ex_externals doc_post1]).
  reflexivity.
Defined.

(** ** More about output paths *)

Section OutPathMore.

Lemma parse_index_html : Path.parse "index.html" = ["index.html"].
Proof. reflexivity. Qed.

(** X12. Every output path lies strictly below the output root and its
    file name has an extension: the renderer never writes to [public]
    itself nor to a name without a suffix. *)
Theorem out_path_shape (s : string) :
  (exists rest, out_path s = "public" :: rest /\ rest <> []) /\
  Path.suffix (out_path s) <> "".
Proof.
  unfold out_path, Path.joinpath, BUILD_DIR. rewrite parse_index_html.
  destruct (Path.parse (Str.strip "/" s)) as [|x q] eqn:Hq.
  - cbn. split; [|discriminate]. eexists. split; [reflexivity|discriminate].
  - destruct (String.eqb_spec (Path.suffix (["public"] ++ x :: q)) "") as [He|Hne].
    + split.
      * exists ((x :: q) ++ ["index.html"]). split; [reflexivity|discriminate].
      * unfold Path.suffix. rewrite name_snoc. discriminate.
    + split; [|exact Hne]. exists (x :: q). split; [reflexivity|discriminate].
Qed.

Lemma dotdot_below_root (q : list string) : ".." ∈ "public" :: q <-> ".." ∈ q.
Proof.
  rewrite elem_of_cons. split; [intros [H|H]; [discriminate|exact H]|auto].
Qed.

Lemma dotdot_before_index (q : list string) :
  ".." ∈ q ++ ["index.html"] <-> ".." ∈ q.
Proof.
  rewrite elem_of_app, elem_of_cons.
  split; [intros [H|[H|H]]; [exact H|discriminate|inversion H]|auto].
Qed.

(** X13. The output path has a parent-directory component exactly when the
    permalink has one between its slashes: only such a permalink can lead
    out of the output root. *)
Theorem out_path_dotdot (s : string) :
  ".." ∈ out_path s <-> ".." ∈ Str.split "/" s.
Proof.
  assert (".." ∈ Path.parse (Str.strip "/" s) <-> ".." ∈ Str.split "/" s) as Hp.
  { rewrite parse_strip. unfold Path.parse.
    rewrite !list_elem_of_In, List.filter_In. split; [intros [H _]; exact H|].
    intros H. split; [exact H|reflexivity]. }
  unfold out_path, Path.joinpath, BUILD_DIR. rewrite parse_index_html.
  destruct (String.eqb _ ""); rewrite <- Hp; cbn [app].
  - rewrite app_comm_cons, dotdot_before_index. apply dotdot_below_root.
  - apply dotdot_below_root.
Qed.

Lemma split_lacks x :
  lacks "/" x = true -> Str.split "/" x = [x].
Proof.
  induction x as [|a x IH]; [reflexivity|].
  cbn [lacks Str.split]. intros [Ha Hx]%andb_true_iff.
  apply negb_true_iff in Ha. rewrite Ha, (IH Hx). reflexivity.
Qed.

Lemma split_lacks_app x rest :
  lacks "/" x = true ->
  Str.split "/" (x +:+ "/" +:+ rest) = x :: Str.split "/" rest.
Proof.
  induction x as [|a x IH]; intros Hx; [reflexivity|].
  cbn [lacks] in Hx. apply andb_true_iff in Hx as [Ha Hx].
  apply negb_true_iff in Ha.
  change (String a x +:+ "/" +:+ rest) with (String a (x +:+ "/" +:+ rest)).
  cbn [Str.split]. rewrite Ha, (IH Hx). reflexivity.
Qed.

(** Joining proper names with slashes and parsing the result gives the
    names back: [as_posix] followed by the parsing of [pathlib] is the
    identity on paths. *)
Theorem parse_as_posix (p : Path.path) :
  forallb proper_name p = true -> Path.parse (Path.as_posix p) = p.
Proof.
  unfold Path.as_posix, Path.parse.
  induction p as [|x p IH]; intros Hp; [reflexivity|].
  cbn [forallb] in Hp. apply andb_true_iff in Hp as [Hx Hp].
  unfold proper_name in Hx. apply andb_true_iff in Hx as [Hpart Hlack].
  destruct p as [|y p].
  - cbn [Str.join]. rewrite (split_lacks _ Hlack). cbn [List.filter].
    rewrite Hpart. reflexivity.
  - change (Str.join "/" (x :: y :: p)) with (x +:+ "/" +:+ Str.join "/" (y :: p)).
    rewrite (split_lacks_app _ _ Hlack). cbn [List.filter].
    rewrite Hpart, (IH Hp). reflexivity.
Qed.

Lemma parse_slash_both s : Path.parse ("/" +:+ s +:+ "/") = Path.parse s.
Proof.
  change ("/" +:+ s +:+ "/") with (String "/" (s +:+ "/")).
  rewrite <- (parse_lstrip (String "/" (s +:+ "/"))). cbn [Str.lstrip].
  rewrite Ascii.eqb_refl, parse_lstrip.
  rewrite <- parse_rstrip, rstrip_snoc_same, parse_rstrip. reflexivity.
Qed.

(** X14. A document [dirs/stem.md] without a declared permalink is
    rendered to [public/dirs/stem/index.html]; when the stem itself has a
    suffix, as in [notes.v2.md], the file is [public/dirs/stem] and no
    [index.html] is added. *)
Theorem derived_out_path (dirs : list string) (stem : string) :
  forallb proper_name (dirs ++ [stem]) = true ->
  out_path (generate_permalink (dirs ++ [stem +:+ ".md"])) =
  BUILD_DIR ++ dirs ++ [stem] ++
  (if String.eqb (Path.name_suffix stem) "" then ["index.html"] else []).
Proof.
  intros Hp.
  assert (stem <> "") as Hstem.
  { intros ->. rewrite forallb_app in Hp. apply andb_true_iff in Hp as [_ Hp].
    discriminate. }
  unfold generate_permalink, out_path, Path.joinpath.
  rewrite with_suffix_empty_md by exact Hstem.
  rewrite parse_strip, parse_slash_both, (parse_as_posix _ Hp), parse_index_html.
  unfold Path.suffix, Path.name.
  rewrite app_assoc, List.last_last.
  destruct (String.eqb (Path.name_suffix stem) "").
  - rewrite <- !app_assoc. reflexivity.
  - rewrite <- !app_assoc, app_nil_r. reflexivity.
Qed.

End OutPathMore.

Lemma parse_as_posix_witness :
  Path.parse (Path.as_posix ["blog"; "2024"; "post1"]) = ["blog"; "2024"; "post1"].
Proof. apply parse_as_posix. reflexivity. Defined.

Lemma derived_out_path_witness :
  out_path (generate_permalink ["blog"; "post1.md"])
    = ["public"; "blog"; "post1"; "index.html"] /\
  out_path (generate_permalink ["notes.v2.md"]) = ["public"; "notes.v2"].
Proof.
  split.
  - apply (derived_out_path ["blog"] "post1"). reflexivity.
  - apply (derived_out_path [] "notes.v2"). reflexivity.
Defined.

(** ** More about the renderer *)

Section RendererMore.
Context `{E : Externals}.







(** X18. The renderer writes at most one file per page, whether or not it
    ends normally. *)
Theorem render_file_count (all_pages index : list page) (fs : gmap Path.path string) :
  (size (fst (render_loop all_pages index fs)) <= size fs + length index)%nat.
Proof.
  revert fs. induction index as [|pg index IH]; intros fs; cbn [render_loop length].
  - simpl. lia.
  - destruct (get_template (template pg)) as [t|]; [|simpl; lia].
    destruct (render t pg all_pages) as [txt|]; [|simpl; lia].
    destruct (permalink pg) as [| | |s| |]; try (simpl; lia).
    specialize (IH (<[out_path s := txt]> fs)).
    rewrite map_size_insert in IH. destruct (fs !! out_path s); simpl in IH; lia.
Qed.

End RendererMore.



(** ** More about the artifact generators *)

Section ArtifactsMore.
Context `{E : Externals}.

Lemma filter_map_comm {A B} (f : B -> bool) (g : A -> B) (l : list A) :
  List.filter f (map g l) = map g (List.filter (fun x => f (g x)) l).
Proof.
  induction l as [|x l IH]; [reflexivity|].
  cbn [map List.filter]. destruct (f (g x)); cbn [map]; rewrite IH; reflexivity.
Qed.

Lemma filter_filter_and {A} (f g : A -> bool) (l : list A) :
  List.filter f (List.filter g l) = List.filter (fun x => g x && f x) l.
Proof.
  induction l as [|x l IH]; [reflexivity|].
  cbn [List.filter]. destruct (g x); cbn [andb List.filter];
    [destruct (f x)|]; rewrite IH; reflexivity.
Qed.

(** X19. The search index keeps the order of the page index, and
    filtering it again changes nothing. *)
Theorem search_index_stable (index : list page) :
  sublist (generate_search_index index) index /\
  generate_search_index (generate_search_index index) = generate_search_index index.
Proof.
  unfold generate_search_index. split.
  - induction index as [|pg index IH]; [constructor|].
    cbn [List.filter]. destruct (negb (truthy (pages_exclude pg)));
      [apply sublist_skip|apply sublist_cons]; exact IH.
  - rewrite filter_filter_and. induction index as [|pg index IH]; [reflexivity|].
    cbn [List.filter]. destruct (negb (truthy (pages_exclude pg)));
      cbn [andb]; rewrite IH; reflexivity.
Qed.

(** X20. The search index of a build can be read off the documents: it
    holds, in document order, the page records of the valid documents
    whose declared [pages_exclude] is falsy or absent. *)
Theorem search_index_of_documents (docs : list document) :
  generate_search_index (fst (build_index docs)) =
  map make_page (List.filter searchable_doc docs).
Proof.
  rewrite build_index_spec. unfold generate_search_index.
  rewrite filter_map_comm, filter_filter_and. reflexivity.
Qed.

Lemma sitemap_entries_strings pages :
  forall ss acc,
  map permalink pages = map VStr ss ->
  sitemap_entries pages acc = Ok (acc ++ map url_entry ss).
Proof.
  induction pages as [|pg pages IH]; intros ss acc Hss.
  - destruct ss; [|discriminate]. simpl. rewrite app_nil_r. reflexivity.
  - destruct ss as [|s ss]; [discriminate|].
    cbn [map] in Hss. injection Hss as Hs Hss.
    cbn [sitemap_entries]. rewrite Hs, (IH ss _ Hss), <- app_assoc. reflexivity.
Qed.

Lemma sitemap_entries_not_string pages :
  forall acc,
  forallb str_permalink pages = false ->
  sitemap_entries pages acc = Raise TypeError.
Proof.
  induction pages as [|pg pages IH]; intros acc Hf; [discriminate|].
  cbn [forallb] in Hf. cbn [sitemap_entries]. unfold str_permalink at 1 in Hf.
  destruct (permalink pg); try reflexivity.
  cbn [is_str andb] in Hf. apply IH. exact Hf.
Qed.

(** X21. The sitemap generator yields one entry per page, in order, when
    all permalinks are strings, and raises [TypeError] without writing
    anything as soon as one permalink is not a string. *)
Theorem generate_sitemap_outcome (pages : list page) :
  (forall ss, map permalink pages = map VStr ss ->
     generate_sitemap pages
       = Ok (map url_entry ss, sitemap_document (map url_entry ss))) /\
  (forallb str_permalink pages = false ->
     generate_sitemap pages = Raise TypeError).
Proof.
  unfold generate_sitemap. split.
  - intros ss Hss. rewrite (sitemap_entries_strings _ _ _ Hss). reflexivity.
  - intros Hf. rewrite (sitemap_entries_not_string _ _ Hf). reflexivity.
Qed.


End ArtifactsMore.

Section BaseUrl.

Lemma rstrip_not_trailing c s :
  forall t, Str.rstrip c s <> t +:+ String c "".
Proof.
  induction s as [|a s IH]; intros t; cbn [Str.rstrip].
  - destruct t; discriminate.
  - destruct (Str.rstrip c s) as [|b r] eqn:Hr.
    + destruct (Ascii.eqb_spec a c) as [->|Hne].
      * destruct t; discriminate.
      * destruct t as [|a' [|b' t]]; try discriminate.
        intros H. injection H as H. contradiction.
    + destruct t as [|a' t]; [discriminate|].
      intros H. injection H as _ H. exact (IH t H).
Qed.

(** X22. The URL of a sitemap entry is the base URL without its closing
    slashes followed by the permalink: the stripped base never ends with a
    slash, and a base URL configured with one more closing slash gives the
    same entries. *)
Theorem url_entry_base (E1 E2 : Externals) (pl : string) :
  (forall t, Str.rstrip "/" (@sitemap_base_url E1) <> t +:+ "/") /\
  (@sitemap_base_url E2 = @sitemap_base_url E1 +:+ "/" ->
   @url_entry E2 pl = @url_entry E1 pl).
Proof.
  split; [apply rstrip_not_trailing|].
  intros H. unfold url_entry. rewrite H, rstrip_snoc_same. reflexivity.
Qed.

End BaseUrl.

Lemma generate_sitemap_outcome_witness :
  @generate_sitemap ex_externals
    [@make_page ex_externals doc_post1; @make_page ex_externals doc_about1]
  = Ok (map (@url_entry ex_externals) ["/blog/post1/"; "/about/"],
        @sitemap_document
           (map (@url_entry ex_externals) ["/blog/post1/"; "/about/"])) /\
  @generate_sitemap ex_externals
    [@make_page ex_externals doc_post1; @make_page ex_externals doc_int_permalink]
  = Raise TypeError.
Proof.
  split.
  - apply (proj1 (@generate_sitemap_outcome ex_externals _)). reflexivity.
  - apply (proj2 (@generate_sitemap_outcome ex_externals _)). reflexivity.
Defined.

Lemma url_entry_base_witness :
  @url_entry ex_externals "/about/" = @url_entry ex_externals_bare "/about/".
Proof.
  apply (proj2 (url_entry_base ex_externals_bare ex_externals "/about/")).
  reflexivity.
Defined.

(** ** More about the build as a whole *)

Section BuildMore.
Context `{E : Externals}.




(** X25. A permalink that is a list or a dict aborts the build in the
    auditor: [TypeError] is raised, no page is rendered and no artifact is
    produced. *)
Theorem unhashable_permalink_aborts (docs : list document) :
  forallb hashable (fst (build_index docs)) = false ->
  b_outcome (main docs) = Raise TypeError /\
  b_files (main docs) = ∅ /\
  b_search_index (main docs) = None /\ b_sitemap (main docs) = None.
Proof.
  intros Hh.
  pose proof (check_loop_outcome (fst (build_index docs)) ∅) as Haud.
  fold (check_for_duplicate_permalinks (fst (build_index docs))) in Haud.
  rewrite Hh in Haud.
  unfold main. destruct (build_index docs) as [index out1]. cbn [fst snd] in *.
  destruct (check_for_duplicate_permalinks index) as [out2 r]. cbn [snd] in Haud.
  subst r. cbn. auto.
Qed.

Lemma main_of_index docs1 docs2 :
  fst (build_index docs1) = fst (build_index docs2) ->
  b_index (main docs1) = b_index (main docs2) /\
  b_files (main docs1) = b_files (main docs2) /\
  b_search_index (main docs1) = b_search_index (main docs2) /\
  b_sitemap (main docs1) = b_sitemap (main docs2) /\
  b_outcome (main docs1) = b_outcome (main docs2).
Proof.
  unfold main. destruct (build_index docs1) as [i1 o1], (build_index docs2) as [i2 o2].
  cbn [fst]. intros ->.
  destruct (check_for_duplicate_permalinks i2) as [out2 [[]|e1]]; [|cbn; auto].
  destruct (render_pages i2) as [fs [[]|e2]]; [|cbn; auto].
  destruct (generate_sitemap (generate_search_index i2)); cbn; auto.
Qed.

Lemma filter_idem {A} (f : A -> bool) (l : list A) :
  List.filter f (List.filter f l) = List.filter f l.
Proof.
  induction l as [|x l IH]; [reflexivity|].
  cbn [List.filter]. destruct (f x) eqn:Hx; [|exact IH].
  cbn [List.filter]. rewrite Hx, IH. reflexivity.
Qed.

(** X26. Invalid documents change nothing but the diagnostics: building
    from the valid documents alone gives the same index, rendered files,
    search index, sitemap and outcome. *)
Theorem invalid_documents_inert (docs : list document) :
  b_index (main (List.filter valid_doc docs)) = b_index (main docs) /\
  b_files (main (List.filter valid_doc docs)) = b_files (main docs) /\
  b_search_index (main (List.filter valid_doc docs)) = b_search_index (main docs) /\
  b_sitemap (main (List.filter valid_doc docs)) = b_sitemap (main docs) /\
  b_outcome (main (List.filter valid_doc docs)) = b_outcome (main docs).
Proof.
  apply main_of_index. rewrite !build_index_spec, filter_idem. reflexivity.
Qed.

End BuildMore.

Lemma unhashable_permalink_aborts_witness :
  b_outcome (@main ex_externals [doc_post1; doc_list_permalink]) = Raise TypeError /\
  b_files (@main ex_externals [doc_post1; doc_list_permalink]) = ∅ /\
  b_search_index (@main ex_externals [doc_post1; doc_list_permalink]) = None /\
  b_sitemap (@main ex_externals [doc_post1; doc_list_permalink]) = None.
Proof.
  apply (@unhashable_permalink_aborts ex_externals [doc_post1; doc_list_permalink]).
  rewrite build_index_spec. reflexivity.
Defined.

(** ** The partial pre-renderers *)

Section PartialsFacts.
Context `{E : Externals}.

Lemma name_stem_md stem : stem <> "" -> Path.name_stem (stem +:+ ".md") = stem.
Proof.
  intros Hne. unfold Path.name_stem.
  rewrite (rfind_app_last "." stem "md") by reflexivity.
  rewrite length_append.
  destruct stem as [|a stem]; [contradiction|].
  replace (0 <? String.length (String a stem))%nat with true
    by (symmetry; apply Nat.ltb_lt; simpl; lia).
  replace (String.length (String a stem) <?
           String.length (String a stem) + String.length ".md" - 1)%nat with true
    by (symmetry; apply Nat.ltb_lt; simpl; lia).
  cbn [andb]. apply take_app_length.
Qed.

Lemma lacks_app c s t : lacks c (s +:+ t) = lacks c s && lacks c t.
Proof.
  induction s as [|a s IH]; [reflexivity|].
  change (String a s +:+ t) with (String a (s +:+ t)). cbn [lacks].
  rewrite IH, andb_assoc. reflexivity.
Qed.

Lemma append_cancel_r (t s1 : string) :
  forall s2, s1 +:+ t = s2 +:+ t -> s1 = s2.
Proof.
  induction s1 as [|a s1 IH]; intros [|b s2] H.
  - reflexivity.
  - exfalso. apply (f_equal String.length) in H.
    change (String b s2 +:+ t) with (String b (s2 +:+ t)) in H.
    change ("" +:+ t) with t in H. cbn [String.length] in H.
    rewrite length_append in H. lia.
  - exfalso. apply (f_equal String.length) in H.
    change (String a s1 +:+ t) with (String a (s1 +:+ t)) in H.
    change ("" +:+ t) with t in H. cbn [String.length] in H.
    rewrite length_append in H. lia.
  - change (String a s1 +:+ t) with (String a (s1 +:+ t)) in H.
    change (String b s2 +:+ t) with (String b (s2 +:+ t)) in H.
    injection H as -> H. rewrite (IH _ H). reflexivity.
Qed.

(** The file a partial source is written to, for a stem without a slash. *)
Lemma partial_target root stem :
  lacks "/" stem = true ->
  Path.joinpath root ("partial_" +:+ stem +:+ ".html")
  = root ++ ["partial_" +:+ stem +:+ ".html"].
Proof.
  intros Hl. unfold Path.joinpath, Path.parse.
  rewrite split_lacks.
  - reflexivity.
  - change ("partial_" +:+ stem +:+ ".html")
      with (String "p" (String "a" (String "r" (String "t" (String "i"
              (String "a" (String "l" (String "_" (stem +:+ ".html"))))))))).
    cbn [lacks]. rewrite lacks_app, Hl. reflexivity.
Qed.

Lemma prerender_untouched sources :
  forall fs p,
  (forall src, src ∈ sources ->
     Path.joinpath TEMPLATE_DIR ("partial_" +:+ Path.name_stem (fst src) +:+ ".html") <> p) ->
  prerender_loop sources fs !! p = fs !! p.
Proof.
  induction sources as [|[n t] sources IH]; intros fs p Hfree; [reflexivity|].
  cbn [prerender_loop]. rewrite IH.
  - apply lookup_insert_ne. apply (Hfree (n, t)). left.
  - intros src Hsrc. apply Hfree. right. exact Hsrc.
Qed.

(** X27. When the partial sources are files [stem.md] with distinct names,
    each of them ends up in [templates/partial_stem.html] holding the
    conversion of its own text. *)
Theorem prerender_each_source (sources : list (string * string))
    (fs : gmap Path.path string) :
  NoDup (map fst sources) ->
  Forall (fun src => exists st,
            fst src = st +:+ ".md" /\ st <> "" /\ lacks "/" st = true) sources ->
  forall st text, (st +:+ ".md", text) ∈ sources ->
  prerender_partials_to_templates (Some sources) fs
    !! ["templates"; "partial_" +:+ st +:+ ".html"] = Some (markdown text).
Proof.
  cbn [prerender_partials_to_templates]. revert fs.
  induction sources as [|[n t] sources IH]; intros fs Hnd Hall st text Hin.
  - inversion Hin.
  - cbn [map fst] in Hnd. apply NoDup_cons in Hnd as [Hn Hnd].
    inversion Hall as [|? ? (st0 & Hn0 & Hst0 & Hl0) Hall']; subst.
    cbn [fst] in Hn0. subst n.
    apply elem_of_cons in Hin as [Heq|Hin].
    + injection Heq as Hst <-. apply append_cancel_r in Hst. subst st0.
      cbn [prerender_loop]. rewrite prerender_untouched.
      * rewrite name_stem_md, partial_target by assumption.
        apply lookup_insert_eq.
      * intros [n' t'] Hsrc. cbn [fst].
        rewrite Forall_forall in Hall'.
        destruct (Hall' _ Hsrc) as (st' & Hn' & Hst' & Hl'). cbn [fst] in Hn'. subst n'.
        rewrite name_stem_md, partial_target by assumption.
        intros Heq. injection Heq as Heq.
        change (st' +:+ ".html" = st +:+ ".html") in Heq.
        apply append_cancel_r in Heq. subst st'.
        apply Hn. apply list_elem_of_fmap. exists (st +:+ ".md", t'). auto.
    + cbn [prerender_loop]. apply IH; assumption.
Qed.

Lemma partials_agree sources :
  forall fs1 fs2,
  (forall q, fs1 !! (TEMPLATE_DIR ++ q) = fs2 !! (BUILD_DIR ++ q)) ->
  forall q, prerender_loop sources fs1 !! (TEMPLATE_DIR ++ q)
            = render_partials_loop sources fs2 !! (BUILD_DIR ++ q).
Proof.
  induction sources as [|[n t] sources IH]; intros fs1 fs2 Hrel; [exact Hrel|].
  cbn [prerender_loop render_partials_loop]. apply IH. intros q.
  unfold Path.joinpath.
  destruct (decide (Path.parse ("partial_" +:+ Path.name_stem n +:+ ".html") = q))
    as [<-|Hne].
  - rewrite !lookup_insert_eq. reflexivity.
  - rewrite !lookup_insert_ne; [apply Hrel| |];
      intros Heq; apply app_inv_head in Heq; contradiction.
Qed.

(** X28. The dormant [render_partials] does under [public] exactly what
    the pre-renderer does under [templates]: started on no files, the two
    write the same texts under the same relative names. *)
Theorem partial_pathways_agree (partial_source : option (list (string * string)))
    (q : Path.path) :
  prerender_partials_to_templates partial_source ∅ !! (TEMPLATE_DIR ++ q)
  = render_partials partial_source ∅ !! (BUILD_DIR ++ q).
Proof.
  destruct partial_source as [sources|]; cbn.
  - apply partials_agree. intros q'. rewrite !lookup_empty. reflexivity.
  - rewrite !lookup_empty. reflexivity.
Qed.

(** X29. The pre-renderer never touches a file outside [templates]. *)
Theorem prerender_stays_in_templates
    (partial_source : option (list (string * string)))
    (fs : gmap Path.path string) (p : Path.path) :
  (forall q, p <> TEMPLATE_DIR ++ q) ->
  prerender_partials_to_templates partial_source fs !! p = fs !! p.
Proof.
  intros Hout. destruct partial_source as [sources|]; [|reflexivity].
  cbn. apply prerender_untouched. intros src _ Heq.
  apply (Hout _ (eq_sym Heq)).
Qed.

End PartialsFacts.

Lemma prerender_each_source_witness :
  @prerender_partials_to_templates ex_externals
    (Some [("footer.md", "bye"); ("nav.md", "menu")]) ∅
    !! ["templates"; "partial_nav.html"] = Some "<p>menu</p>".
Proof.
  apply (@prerender_each_source ex_externals
           [("footer.md", "bye"); ("nav.md", "menu")] ∅ ltac:(
             repeat constructor; intros H;
             repeat (apply elem_of_cons in H as [H|H]; [discriminate|]);
             inversion H)
           ltac:(repeat constructor;
                 [exists "footer"|exists "nav"]; repeat split; discriminate)
           "nav" "menu").
  right. left.
Defined.

Lemma prerender_stays_in_templates_witness :
  @prerender_partials_to_templates ex_externals
    (Some [("nav.md", "menu")])
    {[ ["static"; "site.css"] := "body" ]} !! ["static"; "site.css"] = Some "body".
Proof.
  rewrite (@prerender_stays_in_templates ex_externals).
  - reflexivity.
  - intros q Heq. discriminate.
Defined.
